(** * AI mock-interview backend: the scoring service of [python_backend/app.py]

    A shallow embedding of the Flask backend that scores interview answers:
    [evaluate_answer], [generate_feedback], the [/evaluate-answer] and health
    views, and the artifact loader with the [__main__] block.

    Conventions of the embedding:
    - a Python [str] is a list of Unicode code points;
    - a Python [float] is an IEEE 754 binary64 number ([spec_float] at
      precision 53), with the standard library's executable operations;
    - a call that may raise returns an [outcome]; the code of the [try]
      block runs in a small monad that also records the calls made on the
      vectorizer and the model and the lines written to the console;
    - the exceptions modelled are instances of [Exception], the ones an
      [except Exception] clause catches;
    - the start-up code (the loader and the [__main__] block) runs in a
      second monad that also carries the globals it assigns, on a [host]
      that says which characters the console can encode and what [app.run]
      does. *)

From Stdlib Require Import ZArith NArith List Bool String Ascii Lia.
From Stdlib Require Import Floats.SpecFloat.
Import ListNotations.

Set Warnings "-register-all".
Open Scope Z_scope.

(** ** Python strings *)

Module PyStr.

Definition char := N.
Definition str := list char.

(** A literal of the source, as code points. *)
Definition lit (s : string) : str := map N_of_ascii (list_ascii_of_string s).

(** [len(s)] *)
Definition len {A : Type} (s : list A) : Z := Z.of_nat (List.length s).

(** The characters [str.isspace] accepts, which are the ones [strip()] and
    [split()] without arguments treat as separators. *)
Definition isspace (c : char) : bool :=
  ((9 <=? c) && (c <=? 13) || (28 <=? c) && (c <=? 32)
   || (c =? 133) || (c =? 160) || (c =? 5760)
   || (8192 <=? c) && (c <=? 8202)
   || (c =? 8232) || (c =? 8233) || (c =? 8239) || (c =? 8287)
   || (c =? 12288))%N.

Fixpoint lstrip (s : str) : str :=
  match s with
  | [] => []
  | c :: r => if isspace c then lstrip r else s
  end.

Definition rstrip (s : str) : str := rev (lstrip (rev s)).

(** [s.strip()] *)
Definition strip (s : str) : str := rstrip (lstrip s).

(** [split_from cur s]: the words of [s], where [cur] holds, reversed, the
    characters of the word being read. *)
Fixpoint split_from (cur : str) (s : str) : list str :=
  match s with
  | [] => match cur with [] => [] | _ => [rev cur] end
  | c :: r =>
      if isspace c
      then match cur with
           | [] => split_from [] r
           | _ => rev cur :: split_from [] r
           end
      else split_from (c :: cur) r
  end.

(** [s.split()] *)
Definition split (s : str) : list str := split_from [] s.

End PyStr.

Export PyStr.

(** ** Exceptions and outcomes *)

Inductive exn_class :=
| AttributeError
| IndexError
| ValueError
| OverflowError
| TypeError
| FileNotFoundError
| UnicodeEncodeError
| OtherException.

(** An instance of [Exception]: its class and [str(e)]. *)
Record exn := mkExn { exn_cls : exn_class; exn_msg : str }.

Inductive outcome (A : Type) :=
| Return (a : A)
| Raise (e : exn).

Arguments Return {A} a.
Arguments Raise {A} e.

(** ** Python floats *)

Module PyFloat.

Definition float := spec_float.
Definition prec : Z := 53.
Definition emax : Z := 1024.

(** The float nearest to [m * 2^e]. *)
Definition of_dyadic (m e : Z) : float := binary_normalize prec emax m e false.

(** [float(z)] *)
Definition of_Z (z : Z) : float := of_dyadic z 0.

Definition mul (x y : float) : float := SFmul prec emax x y.

(** [x > y] *)
Definition gt (x y : float) : bool := SFltb y x.

(** [bool(x)]: every float but the two zeros is true, NaN included. *)
Definition nonzero (x : float) : bool :=
  match x with
  | S754_zero _ => false
  | _ => true
  end.

(** [int(x)]: truncation toward zero; NaN and the infinities raise. *)
Definition to_int (x : float) : outcome Z :=
  match x with
  | S754_zero _ => Return 0
  | S754_finite s m e =>
      let a := match e with
               | Zneg p => Z.pos m / 2 ^ Z.pos p
               | _ => Z.pos m * 2 ^ e
               end in
      Return (if s then - a else a)
  | S754_nan =>
      Raise (mkExn ValueError (lit "cannot convert float NaN to integer"))
  | S754_infinity _ =>
      Raise (mkExn OverflowError (lit "cannot convert float infinity to integer"))
  end.

End PyFloat.

(** ** Python values

    The values a decoded JSON body holds and the values a model predicts.
    [PObject cls] is an instance of any other class [cls] (a NumPy integer
    scalar such as [numpy.int64], for one): it is true, is no instance of
    [int], [float] or [str], and has none of their methods. *)

Inductive pyval :=
| PNone
| PBool (b : bool)
| PInt (z : Z)
| PFloat (x : PyFloat.float)
| PStr (s : str)
| PList (l : list pyval)
| PDict (d : list (str * pyval))
| PObject (cls : string).

(** [bool(v)], the test behind [not v]. *)
Definition truthy (v : pyval) : bool :=
  match v with
  | PNone => false
  | PBool b => b
  | PInt z => negb (z =? 0)
  | PFloat x => PyFloat.nonzero x
  | PStr s => match s with [] => false | _ => true end
  | PList l => match l with [] => false | _ => true end
  | PDict d => match d with [] => false | _ => true end
  | PObject _ => true
  end.

(** [isinstance(v, (int, float))]; [bool] is a subclass of [int]. *)
Definition isinstance_int_float (v : pyval) : bool :=
  match v with
  | PBool _ | PInt _ | PFloat _ => true
  | _ => false
  end.

(** [type(v).__name__], as error messages show it. *)
Definition type_name (v : pyval) : string :=
  match v with
  | PNone => "NoneType"
  | PBool _ => "bool"
  | PInt _ => "int"
  | PFloat _ => "float"
  | PStr _ => "str"
  | PList _ => "list"
  | PDict _ => "dict"
  | PObject cls => cls
  end.

(** [int(v)] for the values that pass [isinstance_int_float]. *)
Definition py_int (v : pyval) : outcome Z :=
  match v with
  | PBool b => Return (if b then 1 else 0)
  | PInt z => Return z
  | PFloat x => PyFloat.to_int x
  | _ => Raise (mkExn TypeError
                  (lit "int() argument must be a string, a bytes-like object or a real number, not '"
                   ++ lit (type_name v) ++ lit "'"))
  end.

Definition str_eqb (a b : str) : bool :=
  if list_eq_dec N.eq_dec a b then true else false.

(** [d.get(key, default)] on a [dict]. *)
Fixpoint dict_get (key : str) (default : pyval) (d : list (str * pyval)) : pyval :=
  match d with
  | [] => default
  | (k, v) :: r => if str_eqb k key then v else dict_get key default r
  end.

(** [key in d] *)
Fixpoint dict_has (key : str) (d : list (str * pyval)) : bool :=
  match d with
  | [] => false
  | (k, _) :: r => str_eqb k key || dict_has key r
  end.

(** The [AttributeError] of [v.name] on an object of type [ty] without the
    attribute. *)
Definition no_attribute (ty name : string) : exn :=
  mkExn AttributeError
    (lit "'" ++ lit ty ++ lit "' object has no attribute '" ++ lit name ++ lit "'").

(** [v.get(key, default)]: only a [dict] has the method. *)
Definition py_get (v : pyval) (key : str) (default : pyval) : outcome pyval :=
  match v with
  | PDict d => Return (dict_get key default d)
  | _ => Raise (no_attribute (type_name v) "get")
  end.

(** [v.strip()]: only a [str] has the method. *)
Definition py_strip (v : pyval) : outcome str :=
  match v with
  | PStr s => Return (strip s)
  | _ => Raise (no_attribute (type_name v) "strip")
  end.

(** [seq[0]] *)
Definition index0 {A : Type} (l : list A) : outcome A :=
  match l with
  | x :: _ => Return x
  | [] => Raise (mkExn IndexError (lit "list index out of range"))
  end.

(** The loop of the built-in [max]: the first item, replaced by each later
    item that compares greater. *)
Fixpoint max_from (cur : PyFloat.float) (l : list PyFloat.float) : PyFloat.float :=
  match l with
  | [] => cur
  | x :: r => max_from (if PyFloat.gt x cur then x else cur) r
  end.

(** [max(seq)] *)
Definition py_max (l : list PyFloat.float) : outcome PyFloat.float :=
  match l with
  | [] => Raise (mkExn ValueError (lit "max() arg is an empty sequence"))
  | x :: r => Return (max_from x r)
  end.

(** ** The feedback generator *)

(** The dict [evaluate_answer] returns. *)
Record evaluation := mkEvaluation {
  score : Z;
  feedback : str;
  strengths : list str;
  improvements : list str
}.

Definition feedback_excellent : str :=
  lit "Excellent answer! You demonstrated strong knowledge and communication skills.".
Definition feedback_good : str :=
  lit "Good answer with room for improvement. Consider adding more specific examples and details.".
Definition feedback_fair : str :=
  lit "Fair answer. Try to provide more comprehensive responses with better structure.".
Definition feedback_needs_improvement : str :=
  lit "Needs improvement. Focus on understanding the question and providing more relevant details.".

(** [len(answer.split())] *)
Definition word_count (answer : str) : Z := len (split answer).

Definition generate_feedback (score : Z) (answer : str) (question : pyval)
  : str * list str * list str :=
  let word_count := len (split answer) in
  (* Determine strengths *)
  let strengths : list str := [] in
  let strengths :=
    if score >=? 80 then
      strengths ++ [lit "Comprehensive and well-structured answer";
                    lit "Demonstrates strong understanding";
                    lit "Clear and articulate communication"]
    else if score >=? 60 then
      strengths ++ [lit "Good understanding of the topic";
                    lit "Relevant points covered"]
    else if score >=? 40 then
      strengths ++ [lit "Basic understanding demonstrated"]
    else strengths in
  let strengths :=
    if word_count >=? 100 then strengths ++ [lit "Detailed explanation provided"]
    else strengths in
  (* Determine improvements *)
  let improvements : list str := [] in
  let improvements :=
    if score <? 80 then
      let improvements :=
        if word_count <? 50
        then improvements ++ [lit "Provide more detailed explanations"]
        else improvements in
      improvements ++ [lit "Include specific examples to support your points";
                       lit "Elaborate on key concepts"]
    else improvements in
  let improvements :=
    if score <? 60 then
      improvements ++ [lit "Address all aspects of the question";
                       lit "Organize your thoughts more clearly"]
    else improvements in
  let improvements :=
    if score <? 40 then
      improvements ++ [lit "Focus on understanding the core question";
                       lit "Provide more relevant information"]
    else improvements in
  (* Generate overall feedback *)
  let feedback :=
    if score >=? 80 then feedback_excellent
    else if score >=? 60 then feedback_good
    else if score >=? 40 then feedback_fair
    else feedback_needs_improvement in
  (feedback, strengths, improvements).

(** ** The vectorizer, the model and the evaluation *)

Section Evaluation.

(** What [vectorizer.transform] returns and the model's methods take. *)
Context {fvec : Type}.

(** The loaded artifacts, by the methods the code calls on them. A model has
    the attribute [predict_proba] or not. *)
Record Vectorizer := mkVectorizer {
  transform : list pyval -> outcome fvec
}.

Record Model := mkModel {
  predict : fvec -> outcome (list pyval);
  predict_proba : option (fvec -> outcome (list (list PyFloat.float)))
}.

(** The module's globals [model] and [vectorizer]; [None] until loaded. *)
Record globals := mkGlobals {
  model : option Model;
  vectorizer : option Vectorizer
}.

(** What a run does that can be observed from outside. *)
Inductive event :=
| CallTransform (docs : list pyval)
| CallPredict (x : fvec)
| CallPredictProba (x : fvec)
| Console (line : str)
| AppRun (host : str) (port : Z).

Definition trace := list event.

(** Computations that may raise and that append to the trace. *)
Definition M (A : Type) : Type := trace -> outcome A * trace.

Definition ret {A : Type} (a : A) : M A := fun t => (Return a, t).

Definition bind {A B : Type} (c : M A) (k : A -> M B) : M B :=
  fun t =>
    match c t with
    | (Return a, t') => k a t'
    | (Raise e, t') => (Raise e, t')
    end.

(** A pure call that may raise. *)
Definition lift {A : Type} (o : outcome A) : M A := fun t => (o, t).

Definition emit (ev : event) : M unit := fun t => (Return tt, t ++ [ev]).

(** [try: body  except Exception as e: handler e] *)
Definition try_except {A : Type} (body : M A) (handler : exn -> M A) : M A :=
  fun t =>
    match body t with
    | (Return a, t') => (Return a, t')
    | (Raise e, t') => handler e t'
    end.

End Evaluation.

Arguments Vectorizer : clear implicits.
Arguments Model : clear implicits.
Arguments globals : clear implicits.
Arguments event : clear implicits.
Arguments trace : clear implicits.
Arguments M : clear implicits.

Declare Scope py_scope.
Delimit Scope py_scope with py.
Notation "x <- c ;; k" := (bind c (fun x => k))
  (at level 61, c at next level, right associativity) : py_scope.
Notation "c ;;; k" := (bind c (fun _ => k))
  (at level 61, right associativity) : py_scope.

Open Scope py_scope.

Section Scoring.

Context {fvec : Type}.


(** [vectorizer.transform(docs)] on the global, which may be [None]. *)
Definition call_transform (g : globals fvec) (docs : list pyval) : M fvec fvec :=
  match vectorizer g with
  | None => lift (Raise (no_attribute "NoneType" "transform"))
  | Some v => emit (CallTransform docs) ;;; lift (transform v docs)
  end.

(** [model.predict(x)] on the global, which may be [None]. *)
Definition call_predict (g : globals fvec) (x : fvec) : M fvec (list pyval) :=
  match model g with
  | None => lift (Raise (no_attribute "NoneType" "predict"))
  | Some m => emit (CallPredict x) ;;; lift (predict m x)
  end.

(** [hasattr(model, 'predict_proba')] and the bound method. *)
Definition get_predict_proba (g : globals fvec)
  : option (fvec -> outcome (list (list PyFloat.float))) :=
  match model g with
  | None => None
  | Some m => predict_proba m
  end.

(** The [if hasattr(model, 'predict_proba') ... else ...] statement: the
    value of [score] before it is clamped. *)
Definition model_score (g : globals fvec) (answer_vector : fvec) (prediction : pyval) : M fvec Z :=
  match get_predict_proba g with
  | Some proba =>
      rows <- (emit (CallPredictProba answer_vector) ;;; lift (proba answer_vector)) ;;
      probabilities <- lift (index0 rows) ;;
      confidence <- lift (py_max probabilities) ;;
      lift (PyFloat.to_int (PyFloat.mul confidence (PyFloat.of_Z 100)))
  | None =>
      if isinstance_int_float prediction then lift (py_int prediction) else ret 50
  end.

(** [generate_feedback(score, answer, question)] on a value: [answer.split()]
    needs a [str]. *)
Definition call_generate_feedback (score : Z) (answer question : pyval)
  : outcome (str * list str * list str) :=
  match answer with
  | PStr s => Return (generate_feedback score s question)
  | _ => Raise (no_attribute (type_name answer) "split")
  end.

Definition too_short_result : evaluation :=
  mkEvaluation 0
    (lit "Answer is too short. Please provide a more detailed response.")
    []
    [lit "Provide more detailed explanations";
     lit "Add relevant examples";
     lit "Elaborate on key points"].

Definition fallback_result : evaluation :=
  mkEvaluation 50
    (lit "Unable to evaluate answer accurately. Please try again.")
    [lit "Answer provided"]
    [lit "Ensure answer is clear and well-structured"].

(** The test [not user_answer or len(user_answer.strip()) < 10]. *)
Definition too_short (user_answer : pyval) : outcome bool :=
  if negb (truthy user_answer) then Return true
  else match py_strip user_answer with
       | Return stripped => Return (len stripped <? 10)
       | Raise e => Raise e
       end.

(** The body of the [try] statement. *)
Definition evaluate_answer_try (g : globals fvec) (question user_answer : pyval) : M fvec evaluation :=
  (* Vectorize the answer *)
  answer_vector <- call_transform g [user_answer] ;;
  (* Get prediction *)
  predictions <- call_predict g answer_vector ;;
  prediction <- lift (index0 predictions) ;;
  score <- model_score g answer_vector prediction ;;
  (* Ensure score is between 0 and 100 *)
  let score := Z.max 0 (Z.min 100 score) in
  (* Generate feedback based on score *)
  fsi <- lift (call_generate_feedback score user_answer question) ;;
  let '(feedback, strengths, improvements) := fsi in
  ret (mkEvaluation score feedback strengths improvements).

(** The [except Exception as e] clause. *)
Definition evaluate_answer_except (e : exn) : M fvec evaluation :=
  emit (Console (lit "Error during evaluation: " ++ exn_msg e)) ;;;
  ret fallback_result.

Definition evaluate_answer (g : globals fvec) (question user_answer : pyval) : M fvec evaluation :=
  (* Basic validation *)
  short <- lift (too_short user_answer) ;;
  if short : bool then ret too_short_result
  else try_except (evaluate_answer_try g question user_answer) evaluate_answer_except.

End Scoring.

(** ** The HTTP views *)

(** The JSON object a view of [/evaluate-answer] sends: the four keys of an
    evaluation, and the key [error] on the error paths. *)
Record json_body := mkBody {
  error : option str;
  result : evaluation
}.

(** [jsonify(...)] with its status code, 200 when none is given. *)
Record response := mkResponse {
  status : Z;
  body : json_body
}.

(** The JSON object of [GET /] and [GET /health]. *)
Record status_body := mkStatus {
  status_text : str;
  message : option str;
  model_loaded : bool;
  vectorizer_loaded : bool
}.

Definition is_None {A : Type} (o : option A) : bool :=
  match o with None => true | Some _ => false end.

(** The machine the start-up code runs on: the characters the encoding of
    [sys.stdout] has, the text of the [UnicodeEncodeError] it raises for a
    line, and what [app.run] does once called (it returns when the server
    stops, or raises, as when the port is taken). *)
Record host := mkHost {
  stdout_encodes : char -> bool;
  encode_error : str -> str;
  app_run : outcome unit
}.

Section Views.

Context {fvec : Type}.

Definition home (g : globals fvec) : status_body :=
  mkStatus (lit "running") (Some (lit "AI Mock Interview Backend API"))
    (negb (is_None (model g))) (negb (is_None (vectorizer g))).

Definition health_check (g : globals fvec) : status_body :=
  mkStatus (lit "healthy") None
    (negb (is_None (model g))) (negb (is_None (vectorizer g))).

(** The view of [POST /evaluate-answer]; [data] is what [request.get_json()]
    returned for a body that parsed. *)
Definition evaluate_answer_endpoint (g : globals fvec) (data : pyval) : M fvec response :=
  (* Check if model is loaded *)
  if is_None (model g) || is_None (vectorizer g) then
    ret (mkResponse 500
           (mkBody (Some (lit "Model not loaded. Please restart the server."))
              (mkEvaluation 0 (lit "System error. Please try again later.") [] [])))
  else if negb (truthy data) then
    ret (mkResponse 400
           (mkBody (Some (lit "Invalid request. Please provide JSON data."))
              (mkEvaluation 0 (lit "Invalid request format.") [] [])))
  else
    (* Extract question and answer *)
    question <- lift (py_get data (lit "question") (PStr [])) ;;
    user_answer <- lift (py_get data (lit "user_answer") (PStr [])) ;;
    if negb (truthy user_answer) then
      ret (mkResponse 400
             (mkBody (Some (lit "user_answer is required"))
                (mkEvaluation 0 (lit "No answer provided.") []
                   [lit "Provide an answer to the question"])))
    else
      (* Evaluate the answer *)
      result <- evaluate_answer g question user_answer ;;
      ret (mkResponse 200 (mkBody None result)).

(** The status code the client receives. Flask, run with [debug=False],
    answers a view that raised with 500 Internal Server Error. *)
Definition http_status (o : outcome response) : Z :=
  match o with
  | Return r => status r
  | Raise _ => 500
  end.

(** ** Loading the artifacts and the [__main__] block *)

(** An artifact file, by what each of the two loaders makes of it. *)
Record pickled (A : Type) := mkPickled {
  pickle_load : outcome A;
  joblib_load : outcome A
}.

Arguments pickle_load {A} p.
Arguments joblib_load {A} p.

(** The folder [dataset]. A file holds any object: [None] is [None], and an
    object of another kind is a vectorizer or a model whose methods raise. *)
Record dataset := mkDataset {
  tfidf_vectorizer_pkl : pickled (option (Vectorizer fvec));
  interview_model_pkl : pickled (option (Model fvec))
}.

(** "Try loading with pickle first, then joblib". *)
Definition load_artifact {A : Type} (f : pickled A) : outcome A :=
  match pickle_load f with
  | Return a => Return a
  | Raise _ => joblib_load f
  end.

(** [print(line)]: the line reaches the console when the encoding of
    [sys.stdout] has all its characters, and [UnicodeEncodeError] is raised
    when it has not. *)
Definition print (h : host) (line : str) : M fvec unit :=
  if forallb (stdout_encodes h) line then emit (Console line)
  else lift (Raise (mkExn UnicodeEncodeError (encode_error h line))).

(** Computations of the start-up code: they may raise, they append to the
    trace and they assign the globals [model] and [vectorizer]. *)
Definition St (A : Type) : Type :=
  globals fvec -> trace fvec -> outcome A * globals fvec * trace fvec.

Definition st_ret {A : Type} (a : A) : St A := fun g t => (Return a, g, t).

Definition st_bind {A B : Type} (c : St A) (k : A -> St B) : St B :=
  fun g t =>
    match c g t with
    | (Return a, g', t') => k a g' t'
    | (Raise e, g', t') => (Raise e, g', t')
    end.

(** A pure call that may raise. *)
Definition st_lift {A : Type} (o : outcome A) : St A := fun g t => (o, g, t).

(** A computation that leaves the globals alone. *)
Definition st_run {A : Type} (c : M fvec A) : St A :=
  fun g t => let (o, t') := c t in (o, g, t').

(** [vectorizer = v] and [model = m] under [global model, vectorizer]. *)
Definition set_vectorizer (v : option (Vectorizer fvec)) : St unit :=
  fun g t => (Return tt, mkGlobals (model g) v, t).

Definition set_model (m : option (Model fvec)) : St unit :=
  fun g t => (Return tt, mkGlobals m (vectorizer g), t).

(** [try: body  except ... as e: handler e] *)
Definition st_try {A : Type} (body : St A) (handler : exn -> St A) : St A :=
  fun g t =>
    match body g t with
    | (Return a, g', t') => (Return a, g', t')
    | (Raise e, g', t') => handler e g' t'
    end.

Declare Scope st_scope.
Delimit Scope st_scope with st.
Notation "x <- c ;; k" := (st_bind c (fun x => k))
  (at level 61, c at next level, right associativity) : st_scope.
Notation "c ;;; k" := (st_bind c (fun _ => k))
  (at level 61, right associativity) : st_scope.

(** The body of the [try] statement of [load_model_and_vectorizer]. *)
Definition load_model_and_vectorizer_try (h : host) (d : dataset) : St bool :=
  (v <- st_lift (load_artifact (tfidf_vectorizer_pkl d)) ;;
   set_vectorizer v ;;;
   st_run (print h ([10003%N] ++ lit " Vectorizer loaded successfully from dataset folder")) ;;;
   m <- st_lift (load_artifact (interview_model_pkl d)) ;;
   set_model m ;;;
   st_run (print h ([10003%N] ++ lit " Model loaded successfully from dataset folder")) ;;;
   st_ret true)%st.

(** Its two [except] clauses. *)
Definition load_model_and_vectorizer_except (h : host) (e : exn) : St bool :=
  match exn_cls e with
  | FileNotFoundError =>
      (st_run (print h ([10007%N] ++ lit " Error: Model files not found - " ++ exn_msg e)) ;;;
       st_run (print h (lit "Please ensure 'tfidf_vectorizer.pkl' and 'interview_model.pkl' are in the 'dataset' folder")) ;;;
       st_ret false)%st
  | _ =>
      (st_run (print h ([10007%N] ++ lit " Error loading model: " ++ exn_msg e)) ;;;
       st_ret false)%st
  end.

Definition load_model_and_vectorizer (h : host) (d : dataset) : St bool :=
  st_try (load_model_and_vectorizer_try h d) (load_model_and_vectorizer_except h).

Definition rule : str := repeat 61%N 70.

(** The block run when [load_model_and_vectorizer()] is true; [AppRun]
    marks the call of [app.run]. *)
Definition main_serve (h : host) : St unit :=
  (st_run (print h ([10%N; 10003%N] ++ lit " Backend ready!" ++ [10%N])) ;;;
   st_run (print h rule) ;;;
   st_run (print h ([128225%N] ++ lit " BACKEND URL:  http://localhost:5000")) ;;;
   st_run (print h ([128225%N] ++ lit " API ENDPOINT: http://localhost:5000/evaluate-answer")) ;;;
   st_run (print h rule) ;;;
   st_run (print h ([10%N; 9888%N; 65039%N]
                    ++ lit "  IMPORTANT: OPEN IN EXTERNAL BROWSER (Chrome/Edge/Firefox)")) ;;;
   st_run (print h (lit "   DO NOT use VS Code Simple Browser - it blocks camera/microphone!"
                    ++ [10%N])) ;;;
   st_run (print h (lit "   1. Keep this terminal running")) ;;;
   st_run (print h (lit "   2. Open your frontend in Chrome/Edge: http://localhost:8000")) ;;;
   st_run (print h (lit "   3. Grant camera/microphone permissions when prompted" ++ [10%N])) ;;;
   st_run (print h rule) ;;;
   st_run (print h (lit "Press Ctrl+C to stop the server" ++ [10%N])) ;;;
   st_run (emit (AppRun (lit "0.0.0.0") 5000)) ;;;
   st_lift (app_run h))%st.

(** The [else] block. *)
Definition main_failed (h : host) : St unit :=
  (st_run (print h ([10%N; 10007%N] ++ lit " Failed to start backend. Please check model files.")) ;;;
   st_run (print h (lit "Ensure 'dataset/tfidf_vectorizer.pkl' and 'dataset/interview_model.pkl' exist in the root folder.")) ;;;
   st_ret tt)%st.

(** The block under [if __name__ == '__main__']. *)
Definition main (h : host) (d : dataset) : St unit :=
  (st_run (print h rule) ;;;
   st_run (print h ([128640%N] ++ lit " AI MOCK INTERVIEW - PYTHON BACKEND")) ;;;
   st_run (print h rule) ;;;
   ok <- load_model_and_vectorizer h d ;;
   if ok : bool then main_serve h else main_failed h)%st.

(** The parts of what a start-up computation gives. *)
Definition outcome_of {A : Type} (r : outcome A * globals fvec * trace fvec) : outcome A :=
  fst (fst r).
Definition globals_of {A : Type} (r : outcome A * globals fvec * trace fvec) : globals fvec :=
  snd (fst r).
Definition trace_of {A : Type} (r : outcome A * globals fvec * trace fvec) : trace fvec :=
  snd r.

(** Whether a run reached [app.run]. *)
Definition is_AppRun (ev : event fvec) : bool :=
  match ev with
  | AppRun _ _ => true
  | _ => false
  end.

Definition server_started (t : trace fvec) : bool := existsb is_AppRun t.

End Views.

Arguments St : clear implicits.

(** ** The specification's scoring rule, for comparison *)

(** [round(x)]: the nearest integer, a tie going to the even one. *)
Definition round_half_even (x : PyFloat.float) : outcome Z :=
  match x with
  | S754_finite s m (Zneg p) =>
      let d := 2 ^ Z.pos p in
      let q := Z.pos m / d in
      let r := Z.pos m mod d in
      let a := match 2 * r ?= d with
               | Lt => q
               | Gt => q + 1
               | Eq => if Z.even q then q else q + 1
               end in
      Return (if s then - a else a)
  | _ => PyFloat.to_int x
  end.

(** The score as the specification words it: "round(max class probability
    x 100)". *)
Definition spec_proba_score (probabilities : list PyFloat.float) : outcome Z :=
  match py_max probabilities with
  | Return confidence => round_half_even (PyFloat.mul confidence (PyFloat.of_Z 100))
  | Raise e => Raise e
  end.

(** ** Sample artifacts and requests *)

Module Samples.

(** A vectorizer that counts the characters of its first document. *)
Definition counting_vectorizer : Vectorizer nat :=
  mkVectorizer (fun docs =>
    match docs with
    | PStr s :: _ => Return (List.length s)
    | _ => Raise (mkExn TypeError (lit "expected a string"))
    end).

(** A vectorizer that rejects every input. *)
Definition failing_vectorizer : Vectorizer nat :=
  mkVectorizer (fun _ => Raise (mkExn ValueError (lit "empty vocabulary"))).

(** 0.4921875 and 0.5078125, both exact in binary64. *)
Definition p_low : PyFloat.float := PyFloat.of_dyadic 63 (-7).
Definition p_high : PyFloat.float := PyFloat.of_dyadic 65 (-7).

(** A classifier with [predict_proba]. *)
Definition proba_model : Model nat :=
  mkModel (fun _ => Return [PInt 1])
          (Some (fun _ => Return [[p_low; p_high]])).

(** A model without [predict_proba] that predicts the given value. *)
Definition constant_model (prediction : pyval) : Model nat :=
  mkModel (fun _ => Return [prediction]) None.

Definition loaded (m : Model nat) (v : Vectorizer nat) : globals nat :=
  mkGlobals (Some m) (Some v).

Definition long_answer : str :=
  lit "I led a team of five engineers for two years.".

Definition other_answer : str :=
  lit "  We   shipped the new billing service on time, twice over!  ".

Definition short_answer : str := lit "   I agree   ".

Definition question : pyval := PStr (lit "Tell me about yourself").

(** A folder without the two files. *)
Definition not_found : exn := mkExn FileNotFoundError (lit "No such file or directory").

Definition empty_dataset : @dataset nat :=
  mkDataset (mkPickled _ (Raise not_found) (Raise not_found))
            (mkPickled _ (Raise not_found) (Raise not_found)).

(** A folder with the vectorizer only. *)
Definition vectorizer_only : @dataset nat :=
  mkDataset (mkPickled _ (Return (Some counting_vectorizer))
               (Return (Some counting_vectorizer)))
            (mkPickled _ (Raise not_found) (Raise not_found)).

Definition full_dataset : @dataset nat :=
  mkDataset (mkPickled _ (Return (Some counting_vectorizer))
               (Return (Some counting_vectorizer)))
            (mkPickled _ (Return (Some proba_model)) (Return (Some proba_model))).

(** A folder whose model file holds a pickled [None]. *)
Definition none_model_dataset : @dataset nat :=
  mkDataset (mkPickled _ (Return (Some counting_vectorizer))
               (Return (Some counting_vectorizer)))
            (mkPickled _ (Return None) (Return None)).

(** A console in UTF-8, and a server that runs until stopped. *)
Definition utf8_host : host := mkHost (fun _ => true) (fun _ => []) (Return tt).

(** A console in ASCII. *)
Definition ascii_host : host :=
  mkHost (fun c => (c <? 128)%N)
         (fun _ => lit "'ascii' codec can't encode character")
         (Return tt).

End Samples.

(** ** More sample artifacts and requests *)

Module MoreSamples.

Import Samples.

(** A classifier whose first probability is NaN. *)
Definition nan_first_model : Model nat :=
  mkModel (fun _ => Return [PInt 1])
          (Some (fun _ => Return [[S754_nan; p_high]])).

(** A model that predicts nothing. *)
Definition silent_model : Model nat :=
  mkModel (fun _ => Return []) (Some (fun _ => Return [[p_low; p_high]])).

(** Twelve blanks and tabs. *)
Definition blank_answer : str := repeat 32%N 6 ++ repeat 9%N 6.

Definition body_of (answer : pyval) : pyval :=
  PDict [(lit "question", question); (lit "user_answer", answer)].

End MoreSamples.

(** ** Statement vocabulary *)

(** [max(0, min(100, score))] *)
Definition clamp (sc : Z) : Z := Z.max 0 (Z.min 100 sc).

(** The dict of the model branch for a clamped score. *)
Definition evaluation_for (sc : Z) (answer : str) (question : pyval) : evaluation :=
  let '(feedback, strengths, improvements) := generate_feedback sc answer question in
  mkEvaluation sc feedback strengths improvements.

(** The request body has no field [user_answer]. *)
Definition lacks_user_answer (data : pyval) : bool :=
  match data with
  | PDict d => negb (dict_has (lit "user_answer") d)
  | _ => true
  end.

Definition is_dict (data : pyval) : bool :=
  match data with
  | PDict _ => true
  | _ => false
  end.

Definition is_str (v : pyval) : bool :=
  match v with
  | PStr _ => true
  | _ => false
  end.

(** Whether an event is a line on the console. *)
Definition is_Console {fvec : Type} (ev : event fvec) : bool :=
  match ev with
  | Console _ => true
  | _ => false
  end.

(** Whether an event is a call on the vectorizer or on the model. *)
Definition is_artifact_call {fvec : Type} (ev : event fvec) : bool :=
  match ev with
  | CallTransform _ | CallPredict _ | CallPredictProba _ => true
  | _ => false
  end.

(** A computation appends at most [n] events, all of them calls on the
    vectorizer or on the model. *)
Definition calls_at_most {fvec A : Type} (n : nat) (c : M fvec A) : Prop :=
  forall t, exists evs,
    snd (c t) = t ++ evs
    /\ forallb is_artifact_call evs = true
    /\ (List.length evs <= n)%nat.

(** The three error responses of the view of [/evaluate-answer]. *)
Definition not_loaded_response : response :=
  mkResponse 500
    (mkBody (Some (lit "Model not loaded. Please restart the server."))
       (mkEvaluation 0 (lit "System error. Please try again later.") [] [])).

Definition invalid_request_response : response :=
  mkResponse 400
    (mkBody (Some (lit "Invalid request. Please provide JSON data."))
       (mkEvaluation 0 (lit "Invalid request format.") [] [])).

Definition answer_required_response : response :=
  mkResponse 400
    (mkBody (Some (lit "user_answer is required"))
       (mkEvaluation 0 (lit "No answer provided.") []
          [lit "Provide an answer to the question"])).

(** An artifact file that one of the two loaders can read. *)
Definition loadable {A : Type} (f : pickled A) : Prop :=
  (exists a, @pickle_load A f = Return a)
  \/ (exists e a, @pickle_load A f = Raise e /\ @joblib_load A f = Return a).

(** A start-up computation that leaves the globals as they are. *)
Definition inert {fvec A : Type} (c : St fvec A) : Prop :=
  forall g t, globals_of (c g t) = g.

(** A start-up computation that does not call [app.run]. *)
Definition quiet {fvec A : Type} (c : St fvec A) : Prop :=
  forall g t, server_started (trace_of (c g t)) = server_started t.

(** The two lines the [__main__] block prints when loading failed. *)
Definition failed_to_start : list str :=
  [[10%N; 10007%N] ++ lit " Failed to start backend. Please check model files.";
   lit "Ensure 'dataset/tfidf_vectorizer.pkl' and 'dataset/interview_model.pkl' exist in the root folder."].

(** [l] starts with [p]. *)
Definition starts_with {A : Type} (p l : list A) : Prop := exists rest, l = p ++ rest.

(** * Properties *)

(** ** Strings and numbers *)

Lemma clamp_range (z : Z) : 0 <= Z.max 0 (Z.min 100 z) <= 100.
Proof. lia. Qed.

Lemma lstrip_length (s : str) : (List.length (lstrip s) <= List.length s)%nat.
Proof.
  induction s as [|c r IH]; simpl.
  - constructor.
  - destruct (isspace c); simpl; lia.
Qed.

Lemma strip_length (s : str) : len (strip s) <= len s.
Proof.
  unfold len, strip, rstrip.
  rewrite length_rev.
  pose proof (lstrip_length (rev (lstrip s))) as H1.
  rewrite length_rev in H1.
  pose proof (lstrip_length s) as H2.
  lia.
Qed.

(** An answer of ten characters or more after stripping is not empty, so it
    is true. *)
Lemma long_answer_truthy (s : str) : 10 <= len (strip s) -> truthy (PStr s) = true.
Proof.
  intros H. destruct s as [|c r]; [|reflexivity].
  exfalso. revert H. unfold len. simpl. lia.
Qed.

(** [int(x)] of a finite float is its value with the fraction dropped. *)
Lemma to_int_truncates (sg : bool) (m p : positive) (k : Z) :
  PyFloat.to_int (S754_finite sg m (Zneg p)) = Return k ->
  let a := Z.abs k in
  a * 2 ^ Z.pos p <= Z.pos m < (a + 1) * 2 ^ Z.pos p
  /\ k = (if sg then - a else a).
Proof.
  unfold PyFloat.to_int. cbv beta zeta. intros H. injection H as H. subst k.
  change (Z.pow_pos 2 p) with (2 ^ Z.pos p).
  assert (Hd : 0 < 2 ^ Z.pos p) by (apply Z.pow_pos_nonneg; lia).
  pose proof (Z.div_pos (Z.pos m) (2 ^ Z.pos p) ltac:(lia) Hd) as Hq.
  pose proof (Z.mul_div_le (Z.pos m) (2 ^ Z.pos p) Hd) as Hlo.
  pose proof (Z.mul_succ_div_gt (Z.pos m) (2 ^ Z.pos p) Hd) as Hhi.
  set (q := Z.pos m / 2 ^ Z.pos p) in *.
  set (d := 2 ^ Z.pos p) in *.
  assert (Ha : Z.abs (if sg then - q else q) = q) by (destruct sg; lia).
  cbv zeta. rewrite Ha. split; [lia | destruct sg; lia].
Qed.

Lemma feedback_strings_distinct :
  feedback_excellent <> feedback_good /\ feedback_excellent <> feedback_fair
  /\ feedback_excellent <> feedback_needs_improvement
  /\ feedback_good <> feedback_fair /\ feedback_good <> feedback_needs_improvement
  /\ feedback_fair <> feedback_needs_improvement.
Proof. repeat split; intros H; vm_compute in H; discriminate H. Qed.

(** ** The feedback generator *)

Lemma generate_feedback_feedback (sc : Z) (a : str) (q : pyval) :
  fst (fst (generate_feedback sc a q)) =
  if sc >=? 80 then feedback_excellent
  else if sc >=? 60 then feedback_good
  else if sc >=? 40 then feedback_fair
  else feedback_needs_improvement.
Proof. reflexivity. Qed.

Lemma generate_feedback_improvements (sc : Z) (a : str) (q : pyval) :
  snd (generate_feedback sc a q) =
  ((if sc <? 80
    then (if word_count a <? 50 then [lit "Provide more detailed explanations"] else [])
         ++ [lit "Include specific examples to support your points";
             lit "Elaborate on key concepts"]
    else [])
   ++ (if sc <? 60
       then [lit "Address all aspects of the question";
             lit "Organize your thoughts more clearly"]
       else []))
  ++ (if sc <? 40
      then [lit "Focus on understanding the core question";
            lit "Provide more relevant information"]
      else []).
Proof.
  unfold generate_feedback, word_count. cbv zeta. cbn [snd].
  destruct (sc <? 80), (sc <? 60), (sc <? 40), (len (split a) <? 50);
    cbn [app]; rewrite ?app_nil_r; reflexivity.
Qed.

Lemma feedback_excellent_iff (sc : Z) (a : str) (q : pyval) :
  fst (fst (generate_feedback sc a q)) = feedback_excellent <-> 80 <= sc.
Proof.
  destruct feedback_strings_distinct as (H12 & H13 & H14 & _).
  rewrite generate_feedback_feedback, !Z.geb_leb.
  destruct (Z.leb_spec 80 sc); [|destruct (Z.leb_spec 60 sc); [|destruct (Z.leb_spec 40 sc)]];
    split; intros; try lia; try reflexivity; exfalso; congruence.
Qed.

(** C5. The overall feedback of [generate_feedback] is chosen by the
    thresholds 80, 60 and 40 exactly: "Excellent" iff [score >= 80], "Good"
    iff [60 <= score < 80], "Fair" iff [40 <= score < 60], "Needs
    improvement" iff [score < 40]; scores 79 and 80 get different feedback. *)
Theorem generate_feedback_buckets (sc : Z) (a : str) (q : pyval) :
  let fb := fst (fst (generate_feedback sc a q)) in
  (fb = feedback_excellent <-> 80 <= sc)
  /\ (fb = feedback_good <-> 60 <= sc < 80)
  /\ (fb = feedback_fair <-> 40 <= sc < 60)
  /\ (fb = feedback_needs_improvement <-> sc < 40)
  /\ fst (fst (generate_feedback 79 a q)) <> fst (fst (generate_feedback 80 a q)).
Proof.
  destruct feedback_strings_distinct as (H12 & H13 & H14 & H23 & H24 & H34).
  cbv zeta. rewrite !generate_feedback_feedback. rewrite !Z.geb_leb.
  change (80 <=? 79) with false. change (60 <=? 79) with true.
  change (80 <=? 80) with true.
  destruct (Z.leb_spec 80 sc); [|destruct (Z.leb_spec 60 sc); [|destruct (Z.leb_spec 40 sc)]];
    repeat split; intros; try lia; try congruence;
    try (exfalso; congruence).
Qed.

(** C10. The improvements list of [generate_feedback] is empty iff
    [score >= 80]; so feedback in the "Excellent" bucket comes with no
    improvement. *)
Theorem generate_feedback_improvements_empty (sc : Z) (a : str) (q : pyval) :
  (snd (generate_feedback sc a q) = [] <-> 80 <= sc)
  /\ (sc < 80 -> (1 <= len (snd (generate_feedback sc a q))))
  /\ (fst (fst (generate_feedback sc a q)) = feedback_excellent ->
      snd (generate_feedback sc a q) = []).
Proof.
  assert (Hiff : snd (generate_feedback sc a q) = [] <-> 80 <= sc).
  { rewrite generate_feedback_improvements.
    destruct (Z.ltb_spec sc 80), (Z.ltb_spec sc 60), (Z.ltb_spec sc 40);
      try lia; destruct (word_count a <? 50); cbn [app];
      split; intros; try lia; try discriminate; reflexivity. }
  split; [exact Hiff|]. split.
  - intros Hlt.
    assert (Hne : snd (generate_feedback sc a q) <> [])
      by (intros E; apply Hiff in E; lia).
    destruct (snd (generate_feedback sc a q)); [congruence|].
    unfold len. cbn [List.length]. lia.
  - intros Hfb. apply Hiff.
    apply (feedback_excellent_iff sc a q). exact Hfb.
Qed.

(** C7. [generate_feedback] depends on the score and on the word count of
    the answer only: equal scores and answers of equal word count give the
    same triple, whatever the two questions are. *)
Theorem generate_feedback_score_and_word_count
  (sc : Z) (a a' : str) (q q' : pyval) :
  word_count a = word_count a' ->
  generate_feedback sc a q = generate_feedback sc a' q'.
Proof.
  unfold word_count, generate_feedback. intros H. rewrite H. reflexivity.
Qed.

(** ** The evaluation *)

Section EvaluationProofs.

Context {fvec : Type}.

Implicit Types (g : globals fvec) (t : trace fvec) (q ua : pyval) (s : str).

Lemma bind_Return {A B : Type} (c : M fvec A) (k : A -> M fvec B) t a t' :
  c t = (Return a, t') -> bind c k t = k a t'.
Proof. unfold bind. intros H. rewrite H. reflexivity. Qed.

Lemma bind_Raise {A B : Type} (c : M fvec A) (k : A -> M fvec B) t e t' :
  c t = (Raise e, t') -> bind c k t = (Raise e, t').
Proof. unfold bind. intros H. rewrite H. reflexivity. Qed.

Lemma bind_Return_inv {A B : Type} (c : M fvec A) (k : A -> M fvec B) t b t' :
  bind c k t = (Return b, t') ->
  exists a t1, c t = (Return a, t1) /\ k a t1 = (Return b, t').
Proof.
  unfold bind. destruct (c t) as [[a|e] t1]; intros H.
  - exists a, t1. split; [reflexivity | exact H].
  - discriminate H.
Qed.

Lemma too_short_long s : 10 <= len (strip s) -> too_short (PStr s) = Return false.
Proof.
  intros H. unfold too_short. rewrite (long_answer_truthy s H). cbn.
  destruct (Z.ltb_spec (len (strip s)) 10); [lia | reflexivity].
Qed.

Lemma too_short_cases ua :
  match too_short ua with
  | Return true =>
      truthy ua = false \/ exists s, ua = PStr s /\ len (strip s) < 10
  | Return false => exists s, ua = PStr s /\ 10 <= len (strip s)
  | Raise _ => truthy ua = true /\ is_str ua = false
  end.
Proof.
  unfold too_short. destruct (truthy ua) eqn:Ht; cbn [negb].
  - destruct ua as [ | b | z | x | s | l | d | c ]; cbn [py_strip is_str];
      try (split; reflexivity).
    destruct (Z.ltb_spec (len (strip s)) 10).
    + right. exists s. split; [reflexivity | assumption].
    + exists s. split; [reflexivity | assumption].
  - left. reflexivity.
Qed.

(** Past the validation, [evaluate_answer] is its [try] statement. *)
Lemma evaluate_answer_past_validation g q ua t :
  too_short ua = Return false ->
  evaluate_answer g q ua t =
  try_except (evaluate_answer_try g q ua) evaluate_answer_except t.
Proof.
  intros H. unfold evaluate_answer, bind, lift. rewrite H. reflexivity.
Qed.

Lemma evaluate_answer_try_score g q ua t r t' :
  evaluate_answer_try g q ua t = (Return r, t') ->
  exists k, score r = clamp k.
Proof.
  unfold evaluate_answer_try. intros H.
  apply bind_Return_inv in H as (x & t1 & _ & H).
  apply bind_Return_inv in H as (preds & t2 & _ & H).
  apply bind_Return_inv in H as (p & t3 & _ & H).
  apply bind_Return_inv in H as (k & t4 & _ & H).
  apply bind_Return_inv in H as (fsi & t5 & _ & H).
  destruct fsi as [[f st] im]. unfold ret in H.
  injection H as H _. subst r. exists k. reflexivity.
Qed.

(** The [try] body, once the vectorizer and the model answered. *)
Lemma evaluate_answer_try_steps g q s t v m x p preds :
  vectorizer g = Some v -> model g = Some m ->
  transform v [PStr s] = Return x ->
  predict m x = Return (p :: preds) ->
  evaluate_answer_try g q (PStr s) t =
  match model_score g x p ((t ++ [CallTransform [PStr s]]) ++ [CallPredict x]) with
  | (Return k, t') => (Return (evaluation_for (clamp k) s q), t')
  | (Raise e, t') => (Raise e, t')
  end.
Proof.
  intros Hv Hm Ht Hp.
  unfold evaluate_answer_try, call_transform, call_predict.
  rewrite Hv, Hm. unfold bind at 1. unfold bind at 1, emit, lift.
  rewrite Ht. unfold bind at 1. unfold bind at 1. rewrite Hp.
  unfold bind at 1. cbn [index0]. unfold bind at 1.
  destruct (model_score g x p _) as [[k|e] t1]; [|reflexivity].
  unfold bind, lift, ret, call_generate_feedback, evaluation_for, clamp.
  destruct (generate_feedback _ s q) as [[f st] im]. reflexivity.
Qed.

(** C1. Whatever the globals, the question and the answer, the dict
    [evaluate_answer] returns has an integer score in [0,100]: it is the
    short-answer dict with score 0, the fallback dict with score 50, or a
    dict whose score went through [max(0, min(100, score))]. The call
    returns such a dict for every answer that is false or a [str]. *)
Theorem evaluate_answer_score_range g q ua t :
  match fst (evaluate_answer g q ua t) with
  | Return r =>
      0 <= score r <= 100
      /\ ((r = too_short_result /\ score r = 0)
          \/ (r = fallback_result /\ score r = 50)
          \/ exists k, score r = Z.max 0 (Z.min 100 k))
  | Raise _ => truthy ua = true /\ is_str ua = false
  end.
Proof.
  pose proof (too_short_cases ua) as Hc.
  unfold evaluate_answer, bind, lift.
  destruct (too_short ua) as [[|]|e]; cbn [fst].
  - unfold ret. cbn [fst]. split; [cbn; lia | left; split; reflexivity].
  - unfold try_except.
    destruct (evaluate_answer_try g q ua t) as [[r|e] t'] eqn:E; cbn [fst].
    + destruct (evaluate_answer_try_score _ _ _ _ _ _ E) as [k Hk].
      split; [rewrite Hk; apply clamp_range | right; right; exists k; exact Hk].
    + unfold evaluate_answer_except, bind, emit, ret. cbn [fst].
      split; [cbn; lia | right; left; split; reflexivity].
  - exact Hc.
Qed.

(** C2. For an answer that is false (empty string, [None], zero, an empty
    container) or a [str] whose stripped length is under 10,
    [evaluate_answer] returns score 0 with the three fixed improvement
    suggestions, and the trace is the one it started with: neither the
    vectorizer nor the model was called. *)
Theorem evaluate_answer_too_short g q ua t :
  (truthy ua = false \/ exists s, ua = PStr s /\ len (strip s) < 10) ->
  exists r,
    evaluate_answer g q ua t = (Return r, t)
    /\ score r = 0
    /\ strengths r = []
    /\ improvements r = [lit "Provide more detailed explanations";
                         lit "Add relevant examples";
                         lit "Elaborate on key points"].
Proof.
  intros H. exists too_short_result.
  assert (Hs : too_short ua = Return true).
  { unfold too_short. destruct H as [H | (s & -> & H)].
    - rewrite H. reflexivity.
    - destruct (truthy (PStr s)); cbn [negb py_strip]; [|reflexivity].
      destruct (Z.ltb_spec (len (strip s)) 10); [reflexivity | lia]. }
  unfold evaluate_answer, bind, lift. rewrite Hs.
  repeat split; reflexivity.
Qed.

(** C3, amended. With a model that has [predict_proba], for an answer of
    stripped length at least 10, the score before clamping is
    [int(max(probabilities) * 100)], the product with its fraction dropped,
    and the dict returned carries that score clamped. *)
Theorem evaluate_answer_proba_score
  q s t (v : Vectorizer fvec) pr proba x p preds probabilities rows confidence k :
  10 <= len (strip s) ->
  transform v [PStr s] = Return x ->
  pr x = Return (p :: preds) ->
  proba x = Return (probabilities :: rows) ->
  py_max probabilities = Return confidence ->
  PyFloat.to_int (PyFloat.mul confidence (PyFloat.of_Z 100)) = Return k ->
  (forall t', model_score (mkGlobals (Some (mkModel pr (Some proba))) (Some v)) x p t'
              = (Return k, t' ++ [CallPredictProba x]))
  /\ evaluate_answer (mkGlobals (Some (mkModel pr (Some proba))) (Some v)) q (PStr s) t
     = (Return (evaluation_for (clamp k) s q),
        ((t ++ [CallTransform [PStr s]]) ++ [CallPredict x]) ++ [CallPredictProba x]).
Proof.
  intros Hlen Ht Hp Hpp Hmax Hint.
  assert (Hms : forall t',
    model_score (mkGlobals (Some (mkModel pr (Some proba))) (Some v)) x p t'
    = (Return k, t' ++ [CallPredictProba x])).
  { intros t'. unfold model_score, get_predict_proba. cbn [model predict_proba].
    unfold bind, emit, lift. rewrite Hpp. cbn [index0]. rewrite Hmax, Hint.
    reflexivity. }
  split; [exact Hms|].
  rewrite (evaluate_answer_past_validation _ _ _ _ (too_short_long s Hlen)).
  unfold try_except.
  rewrite (evaluate_answer_try_steps
             (mkGlobals (Some (mkModel pr (Some proba))) (Some v))
             q s t v (mkModel pr (Some proba)) x p preds eq_refl eq_refl Ht Hp).
  rewrite Hms. reflexivity.
Qed.

(** Without [predict_proba], for an answer of stripped length at least 10,
    kind by kind of the prediction: an [int] is the score, a [bool] counts
    as 0 or 1, a [float] is the score with its fraction dropped (and the
    fallback dict is returned when [int] raises on it), and any other object
    gives the default 50; the dict returned carries the score clamped. *)
Theorem evaluate_answer_prediction_score
  q s t (v : Vectorizer fvec) pr x p preds :
  10 <= len (strip s) ->
  transform v [PStr s] = Return x ->
  pr x = Return (p :: preds) ->
  evaluate_answer (mkGlobals (Some (mkModel pr None)) (Some v)) q (PStr s) t
  = match p with
    | PInt z =>
        (Return (evaluation_for (clamp z) s q),
         (t ++ [CallTransform [PStr s]]) ++ [CallPredict x])
    | PBool b =>
        (Return (evaluation_for (if b then 1 else 0) s q),
         (t ++ [CallTransform [PStr s]]) ++ [CallPredict x])
    | PFloat f =>
        match PyFloat.to_int f with
        | Return k =>
            (Return (evaluation_for (clamp k) s q),
             (t ++ [CallTransform [PStr s]]) ++ [CallPredict x])
        | Raise e =>
            (Return fallback_result,
             ((t ++ [CallTransform [PStr s]]) ++ [CallPredict x])
             ++ [Console (lit "Error during evaluation: " ++ exn_msg e)])
        end
    | PNone | PStr _ | PList _ | PDict _ | PObject _ =>
        (Return (evaluation_for 50 s q),
         (t ++ [CallTransform [PStr s]]) ++ [CallPredict x])
    end.
Proof.
  intros Hlen Ht Hp.
  rewrite (evaluate_answer_past_validation _ _ _ _ (too_short_long s Hlen)).
  unfold try_except.
  rewrite (evaluate_answer_try_steps
             (mkGlobals (Some (mkModel pr None)) (Some v))
             q s t v (mkModel pr None) x p preds eq_refl eq_refl Ht Hp).
  unfold model_score, get_predict_proba. cbn [model predict_proba].
  destruct p as [ | b | z | f | s0 | l | d | c ];
    cbn [isinstance_int_float py_int]; unfold lift, ret; try reflexivity.
  - destruct b; reflexivity.
  - destruct (PyFloat.to_int f); reflexivity.
Qed.

(** The stages of the [try] body that can raise. *)
Lemma evaluate_answer_try_no_vectorizer g q ua t :
  vectorizer g = None ->
  evaluate_answer_try g q ua t = (Raise (no_attribute "NoneType" "transform"), t).
Proof.
  intros H. unfold evaluate_answer_try, call_transform. rewrite H. reflexivity.
Qed.





End EvaluationProofs.

(** ** The views, the loader and the start-up *)

Lemma dict_get_missing (key : str) (default : pyval) (d : list (str * pyval)) :
  dict_has key d = false -> dict_get key default d = default.
Proof.
  induction d as [|[k v] r IH]; cbn [dict_has dict_get]; intros H.
  - reflexivity.
  - apply orb_false_elim in H as [Hk Hr]. rewrite Hk. apply IH, Hr.
Qed.

Lemma load_artifact_loadable {A : Type} (f : pickled A) :
  (exists a, load_artifact f = Return a) <-> loadable f.
Proof.
  unfold load_artifact, loadable. destruct f as [pk jl]. cbn.
  destruct pk as [a|e].
  - split; [intros _; left; exists a; reflexivity | intros _; exists a; reflexivity].
  - split.
    + intros [a H]. right. exists e, a. split; [reflexivity | exact H].
    + intros [[a H] | (e' & a & _ & H)]; [discriminate H | exists a; exact H].
Qed.

Lemma forallb_encodable (h : host) (line : str) :
  (forall c, stdout_encodes h c = true) -> forallb (stdout_encodes h) line = true.
Proof. intros H. apply forallb_forall. intros c _. apply H. Qed.

Ltac encodable_simpl Henc :=
  repeat (progress (rewrite ?(forallb_encodable _ _ Henc);
                    cbv beta iota zeta delta [emit lift])).

Section ViewProofs.

Context {fvec : Type}.

Implicit Types (g : globals fvec) (t : trace fvec) (data : pyval).

Lemma is_None_true {A : Type} (o : option A) : is_None o = true <-> o = None.
Proof. destruct o; cbn; split; intros H; congruence. Qed.

Lemma server_started_app t (ev : event fvec) :
  server_started (t ++ [ev]) = server_started t || is_AppRun ev.
Proof.
  unfold server_started. rewrite existsb_app. cbn [existsb].
  rewrite orb_false_r. reflexivity.
Qed.

Lemma print_encodable (h : host) (line : str) :
  (forall c, stdout_encodes h c = true) ->
  print (fvec := fvec) h line = emit (Console line).
Proof.
  intros H. unfold print.
  replace (forallb (stdout_encodes h) line) with true; [reflexivity|].
  symmetry. apply forallb_forall. intros c _. apply H.
Qed.

Lemma st_bind_Return {A B : Type} (c : St fvec A) (k : A -> St fvec B) g t a g1 t1 :
  c g t = (Return a, g1, t1) -> st_bind c k g t = k a g1 t1.
Proof. intros H. unfold st_bind. rewrite H. reflexivity. Qed.

Lemma st_bind_Return_inv {A B : Type} (c : St fvec A) (k : A -> St fvec B) g t b g' t' :
  st_bind c k g t = (Return b, g', t') ->
  exists a g1 t1, c g t = (Return a, g1, t1) /\ k a g1 t1 = (Return b, g', t').
Proof.
  unfold st_bind. destruct (c g t) as [[[a|e] g1] t1]; intros H.
  - exists a, g1, t1. split; [reflexivity | exact H].
  - discriminate H.
Qed.

Lemma quiet_ret {A : Type} (a : A) : quiet (st_ret (fvec := fvec) a).
Proof. intros g0 t0. reflexivity. Qed.

Lemma quiet_lift {A : Type} (o : outcome A) : quiet (st_lift (fvec := fvec) o).
Proof. intros g0 t0. reflexivity. Qed.

Lemma quiet_set_vectorizer (v : option (Vectorizer fvec)) : quiet (set_vectorizer v).
Proof. intros g0 t0. reflexivity. Qed.

Lemma quiet_set_model (m : option (Model fvec)) : quiet (set_model m).
Proof. intros g0 t0. reflexivity. Qed.

Lemma quiet_print (h : host) (line : str) : quiet (st_run (print (fvec := fvec) h line)).
Proof.
  intros g0 t0. unfold st_run, print.
  destruct (forallb (stdout_encodes h) line); unfold emit, lift, trace_of; cbn [snd].
  - rewrite server_started_app. apply orb_false_r.
  - reflexivity.
Qed.

Lemma quiet_bind {A B : Type} (c : St fvec A) (k : A -> St fvec B) :
  quiet c -> (forall a, quiet (k a)) -> quiet (st_bind c k).
Proof.
  intros Hc Hk g0 t0. unfold st_bind. specialize (Hc g0 t0).
  destruct (c g0 t0) as [[[a|e] g1] t1]; unfold trace_of in Hc; cbn [snd] in Hc.
  - rewrite (Hk a g1 t1). exact Hc.
  - exact Hc.
Qed.

Lemma quiet_try {A : Type} (body : St fvec A) (handler : exn -> St fvec A) :
  quiet body -> (forall e, quiet (handler e)) -> quiet (st_try body handler).
Proof.
  intros Hb Hh g0 t0. unfold st_try. specialize (Hb g0 t0).
  destruct (body g0 t0) as [[[a|e] g1] t1]; unfold trace_of in Hb; cbn [snd] in Hb.
  - exact Hb.
  - rewrite (Hh e g1 t1). exact Hb.
Qed.

Lemma quiet_load_model_and_vectorizer (h : host) (d : @dataset fvec) :
  quiet (load_model_and_vectorizer h d).
Proof.
  apply quiet_try.
  - unfold load_model_and_vectorizer_try.
    repeat first [ apply quiet_ret | apply quiet_lift | apply quiet_print
                 | apply quiet_set_vectorizer | apply quiet_set_model
                 | apply quiet_bind; [|intros ?] ].
  - intros e. unfold load_model_and_vectorizer_except.
    destruct (exn_cls e);
      repeat first [ apply quiet_ret | apply quiet_print
                   | apply quiet_bind; [|intros ?] ].
Qed.

(** The handler of the loader returns [False] or raises. *)
Lemma load_model_and_vectorizer_except_not_true (h : host) (e : exn) g t g' t' :
  load_model_and_vectorizer_except (fvec := fvec) h e g t <> (Return true, g', t').
Proof.
  unfold load_model_and_vectorizer_except.
  destruct (exn_cls e); unfold st_bind, st_run, st_ret, print, emit, lift;
    repeat match goal with
           | |- context [forallb ?f ?l] => destruct (forallb f l)
           end; intros H; discriminate H.
Qed.

(** The loader returns [True] only with what the two files hold in the
    globals. *)
Lemma load_model_and_vectorizer_true (h : host) (d : @dataset fvec) g t g' t' :
  load_model_and_vectorizer h d g t = (Return true, g', t') ->
  exists v m,
    load_artifact (tfidf_vectorizer_pkl d) = Return v
    /\ load_artifact (interview_model_pkl d) = Return m
    /\ g' = mkGlobals m v.
Proof.
  unfold load_model_and_vectorizer, st_try.
  destruct (load_model_and_vectorizer_try h d g t) as [[[b|e] g1] t1] eqn:E; intros H.
  - injection H as -> <- <-. unfold load_model_and_vectorizer_try in E.
    apply st_bind_Return_inv in E as (v & g2 & t2 & Hv & E).
    apply st_bind_Return_inv in E as (u1 & g3 & t3 & Hsv & E).
    apply st_bind_Return_inv in E as (u2 & g4 & t4 & Hp1 & E).
    apply st_bind_Return_inv in E as (m & g5 & t5 & Hm & E).
    apply st_bind_Return_inv in E as (u3 & g6 & t6 & Hsm & E).
    apply st_bind_Return_inv in E as (u4 & g7 & t7 & Hp2 & E).
    unfold st_lift in Hv, Hm. unfold set_vectorizer in Hsv. unfold set_model in Hsm.
    unfold st_run in Hp1, Hp2. unfold st_ret in E.
    destruct (print h _ t3) as [o1 t3'] in Hp1.
    destruct (print h _ t6) as [o2 t6'] in Hp2.
    inversion Hv; subst; clear Hv. inversion Hsv; subst; clear Hsv.
    inversion Hp1; subst; clear Hp1. inversion Hm; subst; clear Hm.
    inversion Hsm; subst; clear Hsm. inversion Hp2; subst; clear Hp2.
    inversion E; subst; clear E.
    exists v, m. repeat split; assumption.
  - exfalso. exact (load_model_and_vectorizer_except_not_true _ _ _ _ _ _ H).
Qed.

Lemma inert_run {A : Type} (c : M fvec A) : inert (st_run c).
Proof. intros g0 t0. unfold st_run. destruct (c t0). reflexivity. Qed.

Lemma inert_lift {A : Type} (o : outcome A) : inert (st_lift (fvec := fvec) o).
Proof. intros g0 t0. reflexivity. Qed.

Lemma inert_ret {A : Type} (a : A) : inert (st_ret (fvec := fvec) a).
Proof. intros g0 t0. reflexivity. Qed.

Lemma inert_bind {A B : Type} (c : St fvec A) (k : A -> St fvec B) :
  inert c -> (forall a, inert (k a)) -> inert (st_bind c k).
Proof.
  intros Hc Hk g0 t0. unfold st_bind. specialize (Hc g0 t0).
  destruct (c g0 t0) as [[[a|e] g1] t1]; unfold globals_of in Hc; cbn [fst snd] in Hc;
    subst g1; [apply Hk | reflexivity].
Qed.

Lemma inert_main_serve (h : host) : inert (main_serve (fvec := fvec) h).
Proof.
  unfold main_serve.
  repeat first [ apply inert_run | apply inert_lift | apply inert_bind; [|intros ?] ].
Qed.

Lemma quiet_main_failed (h : host) : quiet (main_failed (fvec := fvec) h).
Proof.
  unfold main_failed.
  repeat first [ apply quiet_ret | apply quiet_print | apply quiet_bind; [|intros ?] ].
Qed.

(** A step that does not call [app.run], in a run that does. *)
Lemma st_bind_started {A B : Type} (c : St fvec A) (k : A -> St fvec B) g t :
  quiet c -> server_started t = false ->
  server_started (trace_of (st_bind c k g t)) = true ->
  exists a g1 t1,
    c g t = (Return a, g1, t1)
    /\ server_started t1 = false
    /\ st_bind c k g t = k a g1 t1.
Proof.
  intros Hq Ht. specialize (Hq g t). unfold st_bind.
  destruct (c g t) as [[[a|e] g1] t1]; unfold trace_of in *; cbn [snd] in *; intros H.
  - exists a, g1, t1. rewrite Hq. repeat split. exact Ht.
  - congruence.
Qed.

(** [app.run] is called only after the loader returned [True], and then
    the globals are what the two files hold. *)
Lemma main_started (h : host) (d : @dataset fvec) g0 :
  server_started (trace_of (main h d g0 [])) = true ->
  exists v m,
    load_artifact (tfidf_vectorizer_pkl d) = Return v
    /\ load_artifact (interview_model_pkl d) = Return m
    /\ globals_of (main h d g0 []) = mkGlobals m v.
Proof.
  unfold main. intros H.
  destruct (st_bind_started _ _ g0 [] (quiet_print h _) eq_refl H) as (u1 & g1 & t1 & _ & H1 & E1).
  rewrite E1 in H |- *. clear E1.
  destruct (st_bind_started _ _ _ _ (quiet_print h _) H1 H) as (u2 & g2 & t2 & _ & H2 & E2).
  rewrite E2 in H |- *. clear E2.
  destruct (st_bind_started _ _ _ _ (quiet_print h _) H2 H) as (u3 & g3 & t3 & _ & H3 & E3).
  rewrite E3 in H |- *. clear E3.
  destruct (st_bind_started _ _ _ _ (quiet_load_model_and_vectorizer h d) H3 H)
    as (ok & g4 & t4 & El & H4 & E4).
  rewrite E4 in H |- *. clear E4.
  destruct ok.
  - destruct (load_model_and_vectorizer_true _ _ _ _ _ _ El) as (v & m & Hv & Hm & ->).
    exists v, m. repeat split; [assumption | assumption | apply inert_main_serve].
  - rewrite (quiet_main_failed h _ t4) in H. congruence.
Qed.

Lemma forallb_is_Console_snoc (l : list (event fvec)) (line : str) :
  forallb is_Console (l ++ [Console line]) = forallb is_Console l.
Proof. rewrite forallb_app. cbn. apply andb_true_r. Qed.

Ltac main_failed_trace :=
  match goal with
  | |- exists g' lines, (_, _, (?pre ++ [_]) ++ [_]) = _ /\ _ =>
      eexists; exists pre;
      split; [rewrite <- app_assoc; reflexivity
             | rewrite ?forallb_is_Console_snoc; reflexivity]
  end.

(** With a console that takes every character, a file that cannot be read
    ends the [__main__] block on the two lines of [main_failed]. *)
Lemma main_not_loadable (h : host) (d : @dataset fvec) g0 :
  (forall c, stdout_encodes h c = true) ->
  ~ (loadable (tfidf_vectorizer_pkl d) /\ loadable (interview_model_pkl d)) ->
  exists g' lines,
    main h d g0 [] = (Return tt, g', lines ++ map Console failed_to_start)
    /\ forallb is_Console lines = true.
Proof.
  intros Henc Hn.
  pose proof (load_artifact_loadable (tfidf_vectorizer_pkl d)) as Lv.
  pose proof (load_artifact_loadable (interview_model_pkl d)) as Lm.
  unfold main, load_model_and_vectorizer, load_model_and_vectorizer_try,
    load_model_and_vectorizer_except, main_failed, st_try, st_bind, st_run, st_lift,
    st_ret, set_vectorizer, set_model, print.
  encodable_simpl Henc.
  destruct (load_artifact (tfidf_vectorizer_pkl d)) as [v|e]; encodable_simpl Henc.
  - destruct (load_artifact (interview_model_pkl d)) as [m|e]; encodable_simpl Henc.
    + exfalso. apply Hn. split; [apply Lv | apply Lm]; eexists; reflexivity.
    + destruct (exn_cls e); encodable_simpl Henc;
        main_failed_trace.
  - destruct (exn_cls e); encodable_simpl Henc;
      main_failed_trace.
Qed.

(** On the bodies the view handles, a missing answer is refused: with both
    artifacts loaded, a request whose JSON body is an object without the
    field [user_answer], or is a false value, gets status 400 and a body
    whose [error] explains the refusal; nothing is evaluated. *)
Theorem evaluate_answer_endpoint_missing_answer g data t :
  is_None (model g) = false ->
  is_None (vectorizer g) = false ->
  lacks_user_answer data = true ->
  is_dict data = true \/ truthy data = false ->
  exists r,
    evaluate_answer_endpoint g data t = (Return r, t)
    /\ http_status (Return r) = 400
    /\ (error (body r) = Some (lit "user_answer is required")
        \/ error (body r) = Some (lit "Invalid request. Please provide JSON data."))
    /\ score (result (body r)) = 0.
Proof.
  intros Hm Hv Hl Hd. unfold evaluate_answer_endpoint. rewrite Hm, Hv. cbn [orb].
  destruct (truthy data) eqn:Ht; cbn [negb].
  - destruct Hd as [Hd | Hd]; [|discriminate Hd].
    destruct data as [ | b | z | x | s | l | d | c ]; try discriminate Hd.
    cbn [lacks_user_answer] in Hl. apply negb_true_iff in Hl.
    unfold bind, lift, py_get. rewrite (dict_get_missing _ _ _ Hl).
    cbn [truthy negb]. eexists. unfold ret.
    split; [reflexivity|]. split; [reflexivity|]. split; [left|]; reflexivity.
  - eexists. unfold ret.
    split; [reflexivity|]. split; [reflexivity|]. split; [right|]; reflexivity.
Qed.

(** C9, amended. When [model] or [vectorizer] is [None], the view of
    [POST /evaluate-answer] answers 500 whatever the body is, without
    looking at it; [GET /] and [GET /health] report each artifact on its
    own, [model_loaded] false exactly when [model] is [None] and
    [vectorizer_loaded] false exactly when [vectorizer] is [None]; and the
    [__main__] block calls [app.run] only when both files could be read:
    when one cannot, and the console takes what is printed, it prints that
    it failed to start the backend and returns without calling [app.run]. *)
Theorem evaluate_answer_endpoint_not_loaded g data t :
  model g = None \/ vectorizer g = None ->
  (exists r,
     evaluate_answer_endpoint g data t = (Return r, t)
     /\ http_status (Return r) = 500
     /\ error (body r) = Some (lit "Model not loaded. Please restart the server."))
  /\ (model_loaded (health_check g) = false <-> model g = None)
  /\ (vectorizer_loaded (health_check g) = false <-> vectorizer g = None)
  /\ (model_loaded (home g) = false <-> model g = None)
  /\ (vectorizer_loaded (home g) = false <-> vectorizer g = None)
  /\ (forall (h : host) (d : @dataset fvec) g0,
        server_started (trace_of (main h d g0 [])) = true ->
        loadable (tfidf_vectorizer_pkl d) /\ loadable (interview_model_pkl d))
  /\ (forall (h : host) (d : @dataset fvec) g0,
        (forall c, stdout_encodes h c = true) ->
        ~ (loadable (tfidf_vectorizer_pkl d) /\ loadable (interview_model_pkl d)) ->
        exists g' lines,
          main h d g0 [] = (Return tt, g', lines ++ map Console failed_to_start)
          /\ forallb is_Console lines = true).
Proof.
  intros H.
  assert (Hn : is_None (model g) || is_None (vectorizer g) = true).
  { destruct H as [H | H]; rewrite H; cbn; [reflexivity | apply orb_true_r]. }
  split.
  { unfold evaluate_answer_endpoint. rewrite Hn. eexists. unfold ret.
    split; [reflexivity|]. split; reflexivity. }
  cbn [health_check home model_loaded vectorizer_loaded].
  rewrite !negb_false_iff, !is_None_true.
  repeat (split; [tauto|]).
  split.
  - intros h d g0 Hs.
    destruct (main_started h d g0 Hs) as (v & m & Hv & Hm & _).
    split; apply load_artifact_loadable; eexists; eassumption.
  - intros h d g0 Henc Hnl. exact (main_not_loadable h d g0 Henc Hnl).
Qed.

End ViewProofs.

(** ** The properties on the sample artifacts *)

Import Samples.

(** C4. The code at the failing input: the model has no [predict_proba]
    and predicts a NumPy integer scalar, as a scikit-learn classifier with
    integer labels does. The scalar is no instance of [int] or [float], and
    the score is the default 50, whatever number it holds; the same number
    as an [int], or as a [float] (which a NumPy float scalar is), is
    used as the score. *)
Theorem numpy_prediction_scores_default :
  isinstance_int_float (PObject "numpy.int64") = false
  /\ evaluate_answer (loaded (constant_model (PObject "numpy.int64")) counting_vectorizer)
       question (PStr long_answer) []
     = (Return (evaluation_for 50 long_answer question),
        [CallTransform [PStr long_answer]; CallPredict 45%nat])
  /\ score (evaluation_for 50 long_answer question) = 50
  /\ fst (evaluate_answer (loaded (constant_model (PInt 85)) counting_vectorizer)
            question (PStr long_answer) [])
     = Return (evaluation_for 85 long_answer question)
  /\ fst (evaluate_answer
            (loaded (constant_model (PFloat (PyFloat.of_Z 85))) counting_vectorizer)
            question (PStr long_answer) [])
     = Return (evaluation_for 85 long_answer question).
Proof. repeat split; vm_compute; reflexivity. Qed.

(** A prediction that is NaN is a [float], [int] raises on it, and the
    fallback dict is returned. *)
Example nan_prediction_falls_back :
  fst (evaluate_answer (loaded (constant_model (PFloat S754_nan)) counting_vectorizer)
         question (PStr long_answer) [])
  = Return fallback_result.
Proof. vm_compute. reflexivity. Qed.

(** An answer that is true and is no [str] makes [evaluate_answer] raise
    before the [try] statement. *)
Example number_answer_raises :
  fst (evaluate_answer (loaded proba_model counting_vectorizer) question (PInt 5) [])
  = Raise (no_attribute "int" "strip").
Proof. reflexivity. Qed.

(** The short-answer path on a seven-character answer. *)
Lemma evaluate_answer_too_short_witness :
  (truthy (PStr short_answer) = false
   \/ exists s, PStr short_answer = PStr s /\ len (strip s) < 10)
  /\ exists r,
       evaluate_answer (loaded proba_model counting_vectorizer) question
         (PStr short_answer) [] = (Return r, [])
       /\ score r = 0
       /\ strengths r = []
       /\ improvements r = [lit "Provide more detailed explanations";
                            lit "Add relevant examples";
                            lit "Elaborate on key points"].
Proof.
  assert (H : truthy (PStr short_answer) = false
              \/ exists s, PStr short_answer = PStr s /\ len (strip s) < 10).
  { right. exists short_answer. split; [reflexivity | vm_compute; reflexivity]. }
  split; [exact H|].
  exact (evaluate_answer_too_short (loaded proba_model counting_vectorizer)
           question (PStr short_answer) [] H).
Defined.

(** C3 as worded fails: with class probabilities 0.4921875 and 0.5078125
    the product is 50.78125, the code's score is 50 and the rounded one is
    51. *)
Lemma proba_score_is_truncated_not_rounded :
  10 <= len (strip long_answer)
  /\ fst (model_score (loaded proba_model counting_vectorizer) 45%nat (PInt 1) [])
     = Return 50
  /\ spec_proba_score [p_low; p_high] = Return 51
  /\ fst (model_score (loaded proba_model counting_vectorizer) 45%nat (PInt 1) [])
     <> spec_proba_score [p_low; p_high]
  /\ score (evaluation_for (clamp 50) long_answer question) = 50.
Proof.
  split; [vm_compute; discriminate|].
  split; [vm_compute; reflexivity|].
  split; [vm_compute; reflexivity|].
  split; [vm_compute; discriminate | reflexivity].
Qed.

(** The probability path on the sample classifier: score 50. *)
Lemma evaluate_answer_proba_score_witness :
  10 <= len (strip long_answer)
  /\ evaluate_answer (loaded proba_model counting_vectorizer) question
       (PStr long_answer) []
     = (Return (evaluation_for (clamp 50) long_answer question),
        (([] ++ [CallTransform [PStr long_answer]]) ++ [CallPredict 45%nat])
        ++ [CallPredictProba 45%nat]).
Proof.
  assert (H : 10 <= len (strip long_answer)) by (vm_compute; discriminate).
  split; [exact H|].
  exact (proj2 (evaluate_answer_proba_score question long_answer []
                  counting_vectorizer (fun _ => Return [PInt 1])
                  (fun _ => Return [[p_low; p_high]]) 45%nat (PInt 1) []
                  [p_low; p_high] [] p_high 50
                  H eq_refl eq_refl eq_refl
                  ltac:(vm_compute; reflexivity) ltac:(vm_compute; reflexivity))).
Defined.

(** The prediction path on a model that predicts the [int] 85. *)
Lemma evaluate_answer_prediction_score_witness :
  10 <= len (strip long_answer)
  /\ evaluate_answer (loaded (constant_model (PInt 85)) counting_vectorizer) question
       (PStr long_answer) []
     = (Return (evaluation_for (clamp 85) long_answer question),
        ([] ++ [CallTransform [PStr long_answer]]) ++ [CallPredict 45%nat])
  /\ evaluate_answer
       (loaded (constant_model (PFloat (PyFloat.of_dyadic 145 (-1)))) counting_vectorizer)
       question (PStr long_answer) []
     = (Return (evaluation_for (clamp 72) long_answer question),
        ([] ++ [CallTransform [PStr long_answer]]) ++ [CallPredict 45%nat])
  /\ evaluate_answer
       (loaded (constant_model (PStr (lit "good"))) counting_vectorizer)
       question (PStr long_answer) []
     = (Return (evaluation_for 50 long_answer question),
        ([] ++ [CallTransform [PStr long_answer]]) ++ [CallPredict 45%nat]).
Proof.
  assert (H : 10 <= len (strip long_answer)) by (vm_compute; discriminate).
  split; [exact H|]. split; [|split].
  - exact (evaluate_answer_prediction_score question long_answer []
             counting_vectorizer (fun _ => Return [PInt 85])
             45%nat (PInt 85) [] H eq_refl eq_refl).
  - exact (evaluate_answer_prediction_score question long_answer []
             counting_vectorizer (fun _ => Return [PFloat (PyFloat.of_dyadic 145 (-1))])
             45%nat (PFloat (PyFloat.of_dyadic 145 (-1))) [] H eq_refl eq_refl).
  - exact (evaluate_answer_prediction_score question long_answer []
             counting_vectorizer (fun _ => Return [PStr (lit "good")])
             45%nat (PStr (lit "good")) [] H eq_refl eq_refl).
Defined.


(** Two answers of ten words each, two questions, one result. *)
Lemma generate_feedback_score_and_word_count_witness :
  word_count long_answer = word_count other_answer
  /\ generate_feedback 72 long_answer question
     = generate_feedback 72 other_answer PNone.
Proof.
  assert (H : word_count long_answer = word_count other_answer)
    by (vm_compute; reflexivity).
  split; [exact H|].
  exact (generate_feedback_score_and_word_count 72 long_answer other_answer
           question PNone H).
Defined.

(** C8. The code at the failing input: the body [[1]] parses, has no field
    [user_answer] and is not false, so it passes [if not data] and the view
    raises on [data.get]: the client gets 500 where the claim has 400. The
    empty array, one line earlier, gets the 400 of an invalid request. *)
Theorem evaluate_answer_endpoint_array_body :
  lacks_user_answer (PList [PInt 1]) = true
  /\ fst (evaluate_answer_endpoint (loaded proba_model counting_vectorizer)
            (PList [PInt 1]) [])
     = Raise (mkExn AttributeError (lit "'list' object has no attribute 'get'"))
  /\ http_status (fst (evaluate_answer_endpoint (loaded proba_model counting_vectorizer)
                         (PList [PInt 1]) [])) = 500
  /\ fst (evaluate_answer_endpoint (loaded proba_model counting_vectorizer)
            (PList []) [])
     = Return invalid_request_response
  /\ status invalid_request_response = 400.
Proof. repeat split; vm_compute; reflexivity. Qed.

(** A body with a question and no answer is refused with 400. *)
Lemma evaluate_answer_endpoint_missing_answer_witness :
  is_None (model (loaded proba_model counting_vectorizer)) = false
  /\ is_None (vectorizer (loaded proba_model counting_vectorizer)) = false
  /\ lacks_user_answer (PDict [(lit "question", question)]) = true
  /\ (is_dict (PDict [(lit "question", question)]) = true
      \/ truthy (PDict [(lit "question", question)]) = false)
  /\ exists r,
       evaluate_answer_endpoint (loaded proba_model counting_vectorizer)
         (PDict [(lit "question", question)]) [] = (Return r, [])
       /\ http_status (Return r) = 400
       /\ (error (body r) = Some (lit "user_answer is required")
           \/ error (body r) = Some (lit "Invalid request. Please provide JSON data."))
       /\ score (result (body r)) = 0.
Proof.
  split; [reflexivity|]. split; [reflexivity|].
  split; [vm_compute; reflexivity|]. split; [left; reflexivity|].
  exact (evaluate_answer_endpoint_missing_answer
           (loaded proba_model counting_vectorizer)
           (PDict [(lit "question", question)]) []
           eq_refl eq_refl ltac:(vm_compute; reflexivity) (or_introl eq_refl)).
Defined.

(** C9 as worded fails twice. With the vectorizer loaded and the model
    missing, [model] is [None] and the health views still report
    [vectorizer_loaded] true. And with the files missing the loader returns
    [False] and the [__main__] block never calls [app.run]: no server
    answers requests. *)
Lemma missing_artifacts_health_and_startup :
  (model (mkGlobals None (Some counting_vectorizer)) = None
   \/ vectorizer (mkGlobals (@None (Model nat)) (Some counting_vectorizer)) = None)
  /\ vectorizer_loaded (health_check (mkGlobals (@None (Model nat)) (Some counting_vectorizer)))
     = true
  /\ vectorizer_loaded (home (mkGlobals (@None (Model nat)) (Some counting_vectorizer)))
     = true
  /\ outcome_of (load_model_and_vectorizer utf8_host vectorizer_only (mkGlobals None None) [])
     = Return false
  /\ globals_of (load_model_and_vectorizer utf8_host vectorizer_only (mkGlobals None None) [])
     = mkGlobals None (Some counting_vectorizer)
  /\ outcome_of (load_model_and_vectorizer utf8_host empty_dataset (mkGlobals None None) [])
     = Return false
  /\ server_started (trace_of (main utf8_host empty_dataset (mkGlobals None None) [])) = false
  /\ server_started (trace_of (main utf8_host vectorizer_only (mkGlobals None None) [])) = false.
Proof.
  split; [left; reflexivity|].
  repeat split; vm_compute; reflexivity.
Qed.

(** Without the model, a well-formed request gets 500. *)
Lemma evaluate_answer_endpoint_not_loaded_witness :
  (model (mkGlobals (@None (Model nat)) (Some counting_vectorizer)) = None
   \/ vectorizer (mkGlobals (@None (Model nat)) (Some counting_vectorizer)) = None)
  /\ exists r,
       evaluate_answer_endpoint (mkGlobals None (Some counting_vectorizer))
         (PDict [(lit "user_answer", PStr long_answer)]) [] = (Return r, [])
       /\ http_status (Return r) = 500
       /\ error (body r) = Some (lit "Model not loaded. Please restart the server.").
Proof.
  split; [left; reflexivity|].
  exact (proj1 (evaluate_answer_endpoint_not_loaded
                  (mkGlobals None (Some counting_vectorizer))
                  (PDict [(lit "user_answer", PStr long_answer)]) []
                  (or_introl eq_refl))).
Defined.

(** * Further properties of the code *)

(** ** [generate_feedback]: strengths and improvements *)

Ltac lit_discriminate :=
  match goal with
  | H : @eq str _ _ |- _ => vm_compute in H; discriminate H
  | H : @eq (list str) _ _ |- _ => vm_compute in H; discriminate H
  end.

Lemma generate_feedback_strengths (sc : Z) (a : str) (q : pyval) :
  snd (fst (generate_feedback sc a q)) =
  (if sc >=? 80 then [lit "Comprehensive and well-structured answer";
                      lit "Demonstrates strong understanding";
                      lit "Clear and articulate communication"]
   else if sc >=? 60 then [lit "Good understanding of the topic";
                           lit "Relevant points covered"]
   else if sc >=? 40 then [lit "Basic understanding demonstrated"]
   else [])
  ++ (if word_count a >=? 100 then [lit "Detailed explanation provided"] else []).
Proof.
  unfold generate_feedback, word_count. cbv zeta. cbn [fst snd].
  destruct (sc >=? 80), (sc >=? 60), (sc >=? 40), (len (split a) >=? 100);
    cbn [app]; reflexivity.
Qed.

(** X1. Improvements only grow as the score drops: for one answer, the
    list at a higher score is a prefix of the list at a lower score. *)
Theorem generate_feedback_improvements_prefix (sc sc' : Z) (a : str) (q q' : pyval) :
  sc <= sc' ->
  starts_with (snd (generate_feedback sc' a q')) (snd (generate_feedback sc a q)).
Proof.
  intros H. unfold starts_with. rewrite !generate_feedback_improvements.
  destruct (Z.ltb_spec sc 80), (Z.ltb_spec sc 60), (Z.ltb_spec sc 40),
    (Z.ltb_spec sc' 80), (Z.ltb_spec sc' 60), (Z.ltb_spec sc' 40);
    try lia; destruct (word_count a <? 50); cbn [app];
    eexists; reflexivity.
Qed.

(** X2. The number of improvements is fixed by the bucket and by whether
    the answer has under 50 words: none at 80 or more, then two or three,
    four or five, six or seven; never more than seven. *)
Theorem generate_feedback_improvements_count (sc : Z) (a : str) (q : pyval) :
  len (snd (generate_feedback sc a q)) =
  (if sc <? 80 then 2 + (if word_count a <? 50 then 1 else 0) else 0)
  + (if sc <? 60 then 2 else 0) + (if sc <? 40 then 2 else 0)
  /\ len (snd (generate_feedback sc a q)) <= 7.
Proof.
  rewrite generate_feedback_improvements.
  destruct (sc <? 80), (sc <? 60), (sc <? 40), (word_count a <? 50);
    split; vm_compute; congruence.
Qed.

(** X3. "Provide more detailed explanations" is suggested exactly when the
    score is under 80 and the answer has under 50 words. *)
Theorem generate_feedback_asks_for_detail (sc : Z) (a : str) (q : pyval) :
  In (lit "Provide more detailed explanations") (snd (generate_feedback sc a q))
  <-> sc < 80 /\ word_count a < 50.
Proof.
  rewrite generate_feedback_improvements.
  destruct (Z.ltb_spec sc 80), (Z.ltb_spec sc 60), (Z.ltb_spec sc 40);
    try lia; destruct (Z.ltb_spec (word_count a) 50); cbn [app In];
    (split; [intros Hin | intros [? ?]]); try lia; try (left; reflexivity);
    repeat (destruct Hin as [Hin | Hin]); try contradiction; lit_discriminate.
Qed.

(** X4. The strengths: there is none exactly when the score is under 40 and
    the answer has under 100 words; there are four at most; and "Detailed
    explanation provided" is among them exactly from 100 words on, at any
    score. *)
Theorem generate_feedback_strengths_shape (sc : Z) (a : str) (q : pyval) :
  (snd (fst (generate_feedback sc a q)) = [] <-> sc < 40 /\ word_count a < 100)
  /\ len (snd (fst (generate_feedback sc a q))) <= 4
  /\ (In (lit "Detailed explanation provided") (snd (fst (generate_feedback sc a q)))
      <-> 100 <= word_count a).
Proof.
  rewrite generate_feedback_strengths, !Z.geb_leb.
  destruct (Z.leb_spec 80 sc), (Z.leb_spec 60 sc), (Z.leb_spec 40 sc);
    try lia; destruct (Z.leb_spec 100 (word_count a)); cbn [app In];
    (split; [split; [intros Hnil; try discriminate Hnil; lia
                    | intros [? ?]; try lia; reflexivity]
            | split; [vm_compute; congruence
                     | split; [intros Hin | intros ?]; try lia;
                       try (repeat (first [left; reflexivity | right]));
                       repeat (destruct Hin as [Hin | Hin]);
                       try contradiction; lit_discriminate]]).
Qed.

(** ** Answers and words *)

Lemma lstrip_all_space (s : str) : forallb isspace s = true -> lstrip s = [].
Proof.
  induction s as [|c r IH]; cbn [forallb lstrip]; intros H.
  - reflexivity.
  - apply andb_true_iff in H as [Hc Hr]. rewrite Hc. apply IH, Hr.
Qed.

Lemma strip_all_space (s : str) : forallb isspace s = true -> strip s = [].
Proof.
  intros H. unfold strip, rstrip. rewrite (lstrip_all_space s H). reflexivity.
Qed.

(** A word in progress always ends up in the result. *)
Lemma split_from_pending (c : char) (cur s : str) : split_from (c :: cur) s <> [].
Proof.
  revert c cur. induction s as [|d r IH]; intros c cur; cbn [split_from].
  - discriminate.
  - destruct (isspace d); [discriminate | apply IH].
Qed.

Lemma split_lstrip (s : str) : split s = split (lstrip s).
Proof.
  unfold split. induction s as [|c r IH]; cbn [lstrip split_from].
  - reflexivity.
  - destruct (isspace c) eqn:E; [exact IH|].
    cbn [split_from]. rewrite E. reflexivity.
Qed.

Lemma lstrip_head (s : str) :
  match lstrip s with
  | [] => True
  | c :: _ => isspace c = false
  end.
Proof.
  induction s as [|c r IH]; cbn [lstrip]; [exact I|].
  destruct (isspace c) eqn:E; [exact IH | exact E].
Qed.

(** Every word takes a character and every gap between words another. *)
Lemma split_from_count (cur s : str) :
  (2 * List.length (split_from cur s)
   <= List.length s + match cur with [] => 1 | _ => 2 end)%nat.
Proof.
  revert cur. induction s as [|c r IH]; intros cur; cbn [split_from].
  - destruct cur; cbn [List.length]; lia.
  - destruct (isspace c).
    + destruct cur as [|d cur].
      * specialize (IH []). cbn [List.length] in *. lia.
      * specialize (IH []). cbn [List.length] in *. lia.
    + specialize (IH (c :: cur)). cbn [List.length] in *. destruct cur; lia.
Qed.

(** X5. The word count the feedback uses is bounded by the length of the
    answer: [2 * words <= characters + 1]. So "Detailed explanation
    provided" needs at least 199 characters, and an answer under 99
    characters has under 50 words. *)
Theorem word_count_bound (a : str) :
  2 * word_count a <= len a + 1
  /\ (100 <= word_count a -> 199 <= len a)
  /\ (len a < 99 -> word_count a < 50).
Proof.
  assert (H : 2 * word_count a <= len a + 1).
  { unfold word_count, split, len. pose proof (split_from_count [] a) as H0.
    cbv beta iota in H0. lia. }
  split; [exact H|]. split; intros; lia.
Qed.

(** X6. An answer long enough to be evaluated has at least one word. *)
Theorem evaluated_answer_has_a_word (s : str) :
  10 <= len (strip s) -> 1 <= word_count s.
Proof.
  intros H. unfold word_count. rewrite split_lstrip.
  pose proof (lstrip_head s) as Hh.
  destruct (lstrip s) as [|c r] eqn:E.
  - exfalso. unfold strip in H. rewrite E in H. revert H. unfold len. cbn. lia.
  - unfold split. cbn [split_from]. rewrite Hh.
    pose proof (split_from_pending c [] r) as Hne.
    destruct (split_from [c] r); [congruence|]. unfold len. cbn [List.length]. lia.
Qed.

(** ** More on [evaluate_answer] *)

Section MoreEvaluationProofs.

Context {fvec : Type}.

Implicit Types (g : globals fvec) (t : trace fvec) (q ua : pyval) (s : str).

Lemma bind_ext {A B : Type} (c : M fvec A) (k k' : A -> M fvec B) t :
  (forall a t', k a t' = k' a t') -> bind c k t = bind c k' t.
Proof.
  intros H. unfold bind. destruct (c t) as [[a|e] t']; [apply H | reflexivity].
Qed.

Lemma evaluation_for_score (sc : Z) s q : score (evaluation_for sc s q) = sc.
Proof.
  unfold evaluation_for. destruct (generate_feedback sc s q) as [[f st] im].
  reflexivity.
Qed.

Lemma evaluation_for_feedback (sc : Z) s q :
  feedback (evaluation_for sc s q) = fst (fst (generate_feedback sc s q))
  /\ strengths (evaluation_for sc s q) = snd (fst (generate_feedback sc s q))
  /\ improvements (evaluation_for sc s q) = snd (generate_feedback sc s q).
Proof.
  unfold evaluation_for. destruct (generate_feedback sc s q) as [[f st] im].
  repeat split.
Qed.

Lemma evaluate_answer_short_path g q ua t :
  too_short ua = Return true ->
  evaluate_answer g q ua t = (Return too_short_result, t).
Proof.
  intros H. unfold evaluate_answer, bind, lift. rewrite H. reflexivity.
Qed.

Lemma evaluate_answer_raise_path g q ua t e :
  too_short ua = Raise e -> evaluate_answer g q ua t = (Raise e, t).
Proof.
  intros H. unfold evaluate_answer, bind, lift. rewrite H. reflexivity.
Qed.

(** What the [try] body returns when it returns. *)
Lemma evaluate_answer_try_result g q ua t r t' :
  evaluate_answer_try g q ua t = (Return r, t') ->
  exists s k, ua = PStr s /\ r = evaluation_for (clamp k) s q.
Proof.
  unfold evaluate_answer_try. intros H.
  apply bind_Return_inv in H as (x & t1 & _ & H).
  apply bind_Return_inv in H as (preds & t2 & _ & H).
  apply bind_Return_inv in H as (p & t3 & _ & H).
  apply bind_Return_inv in H as (k & t4 & _ & H).
  apply bind_Return_inv in H as (fsi & t5 & Hf & H).
  unfold lift, call_generate_feedback in Hf.
  destruct ua as [ | b | z | y | s | l | d | c ]; try discriminate Hf.
  injection Hf as Hf _. exists s, k. split; [reflexivity|].
  unfold evaluation_for, clamp. rewrite Hf.
  destruct fsi as [[f st] im]. unfold ret in H. injection H as H _.
  symmetry. exact H.
Qed.

(** The outcome of [evaluate_answer], by the path taken. *)
Lemma evaluate_answer_paths g q ua t r t' :
  evaluate_answer g q ua t = (Return r, t') ->
  (r = too_short_result /\ t' = t /\ too_short ua = Return true)
  \/ (exists e t1, evaluate_answer_try g q ua t = (Raise e, t1)
        /\ r = fallback_result
        /\ t' = t1 ++ [Console (lit "Error during evaluation: " ++ exn_msg e)])
  \/ (exists s k, ua = PStr s /\ 10 <= len (strip s)
        /\ evaluate_answer_try g q ua t = (Return r, t')
        /\ r = evaluation_for (clamp k) s q).
Proof.
  intros H. pose proof (too_short_cases ua) as Hc.
  destruct (too_short ua) as [[|]|e] eqn:E.
  - rewrite (evaluate_answer_short_path _ _ _ _ E) in H.
    injection H as <- <-. left. repeat split.
  - rewrite (evaluate_answer_past_validation _ _ _ _ E) in H.
    unfold try_except in H.
    destruct (evaluate_answer_try g q ua t) as [[r0|e] t1] eqn:Et.
    + injection H as <- <-. right. right.
      destruct (evaluate_answer_try_result _ _ _ _ _ _ Et) as (s & k & -> & Hr).
      destruct Hc as (s' & Hs' & Hlen). injection Hs' as <-.
      exists s, k. repeat split; assumption.
    + right. left. exists e, t1. split; [reflexivity|].
      unfold evaluate_answer_except, bind, emit, ret in H.
      injection H as <- <-. split; reflexivity.
  - rewrite (evaluate_answer_raise_path _ _ _ _ _ E) in H. discriminate H.
Qed.

Lemma calls_at_most_weaken {A : Type} (n m : nat) (c : M fvec A) :
  (n <= m)%nat -> calls_at_most n c -> calls_at_most m c.
Proof.
  intros Hle Hc t0. destruct (Hc t0) as (evs & H1 & H2 & H3).
  exists evs. repeat split; [assumption | assumption | lia].
Qed.

Lemma calls_at_most_ret {A : Type} (a : A) : calls_at_most 0 (ret (fvec := fvec) a).
Proof.
  intros t0. exists []. unfold ret. cbn [snd]. rewrite app_nil_r.
  repeat split. cbn. lia.
Qed.

Lemma calls_at_most_lift {A : Type} (o : outcome A) :
  calls_at_most 0 (lift (fvec := fvec) o).
Proof.
  intros t0. exists []. unfold lift. cbn [snd]. rewrite app_nil_r.
  repeat split. cbn. lia.
Qed.

Lemma calls_at_most_emit (ev : event fvec) :
  is_artifact_call ev = true -> calls_at_most 1 (emit ev).
Proof.
  intros H t0. exists [ev]. unfold emit. cbn [snd forallb]. rewrite H.
  repeat split. cbn. lia.
Qed.

Lemma calls_at_most_bind {A B : Type} (n m : nat) (c : M fvec A) (k : A -> M fvec B) :
  calls_at_most n c -> (forall a, calls_at_most m (k a)) ->
  calls_at_most (n + m) (bind c k).
Proof.
  intros Hc Hk t0. destruct (Hc t0) as (e1 & H1 & H2 & H3). unfold bind.
  destruct (c t0) as [[a|e] t1]; cbn [snd] in H1; subst t1.
  - destruct (Hk a (t0 ++ e1)) as (e2 & H4 & H5 & H6).
    exists (e1 ++ e2). rewrite H4, app_assoc, forallb_app, H2, H5, length_app.
    repeat split. lia.
  - exists e1. cbn [snd]. repeat split; [assumption | lia].
Qed.

(** The events of the [try] body: at most three calls on the artifacts and
    nothing else. *)
Lemma evaluate_answer_try_calls g q ua : calls_at_most 3 (evaluate_answer_try g q ua).
Proof.
  unfold evaluate_answer_try.
  apply (calls_at_most_bind 1 2).
  { unfold call_transform. destruct (vectorizer g).
    - apply (calls_at_most_bind 1 0);
        [apply calls_at_most_emit; reflexivity | intros; apply calls_at_most_lift].
    - apply (calls_at_most_weaken 0); [lia | apply calls_at_most_lift]. }
  intros x. apply (calls_at_most_bind 1 1).
  { unfold call_predict. destruct (model g).
    - apply (calls_at_most_bind 1 0);
        [apply calls_at_most_emit; reflexivity | intros; apply calls_at_most_lift].
    - apply (calls_at_most_weaken 0); [lia | apply calls_at_most_lift]. }
  intros preds. apply (calls_at_most_bind 0 1); [apply calls_at_most_lift|].
  intros p. apply (calls_at_most_bind 1 0).
  { unfold model_score. destruct (get_predict_proba g).
    - apply (calls_at_most_bind 1 0).
      + apply (calls_at_most_bind 1 0);
          [apply calls_at_most_emit; reflexivity | intros; apply calls_at_most_lift].
      + intros rows. apply (calls_at_most_bind 0 0); [apply calls_at_most_lift|].
        intros row. apply (calls_at_most_bind 0 0); [apply calls_at_most_lift|].
        intros c. apply calls_at_most_lift.
    - apply (calls_at_most_weaken 0); [lia|].
      destruct (isinstance_int_float p);
        [apply calls_at_most_lift | apply calls_at_most_ret]. }
  intros k. apply (calls_at_most_bind 0 0); [apply calls_at_most_lift|].
  intros [[f st] im]. apply calls_at_most_ret.
Qed.

End MoreEvaluationProofs.

Lemma generate_feedback_feedback_cases (sc : Z) (a : str) (q : pyval) :
  (fst (fst (generate_feedback sc a q)) = feedback_excellent /\ 80 <= sc)
  \/ (fst (fst (generate_feedback sc a q)) = feedback_good /\ 60 <= sc < 80)
  \/ (fst (fst (generate_feedback sc a q)) = feedback_fair /\ 40 <= sc < 60)
  \/ (fst (fst (generate_feedback sc a q)) = feedback_needs_improvement /\ sc < 40).
Proof.
  rewrite generate_feedback_feedback, !Z.geb_leb.
  destruct (Z.leb_spec 80 sc); [left; split; [reflexivity | lia]|].
  destruct (Z.leb_spec 60 sc); [right; left; split; [reflexivity | lia]|].
  destruct (Z.leb_spec 40 sc); [right; right; left; split; [reflexivity | lia]|].
  right; right; right. split; [reflexivity | lia].
Qed.

Lemma fixed_feedback_strings_distinct :
  forall fb, In fb [feedback_excellent; feedback_good; feedback_fair;
                    feedback_needs_improvement] ->
  feedback too_short_result <> fb /\ feedback fallback_result <> fb.
Proof.
  intros fb Hin. cbn [In] in Hin.
  repeat (destruct Hin as [Hin | Hin]); try contradiction; subst fb;
    split; intros H; vm_compute in H; discriminate H.
Qed.

Lemma evaluation_for_feedback_in (sc : Z) (a : str) (q : pyval) :
  In (feedback (evaluation_for sc a q))
     [feedback_excellent; feedback_good; feedback_fair; feedback_needs_improvement].
Proof.
  rewrite (proj1 (evaluation_for_feedback sc a q)).
  destruct (generate_feedback_feedback_cases sc a q) as [[-> _]|[[-> _]|[[-> _]|[-> _]]]];
    cbn [In]; tauto.
Qed.

Lemma evaluation_for_not_fixed (sc : Z) (a : str) (q : pyval) :
  too_short_result <> evaluation_for sc a q
  /\ fallback_result <> evaluation_for sc a q.
Proof.
  destruct (fixed_feedback_strings_distinct _ (evaluation_for_feedback_in sc a q))
    as [H1 H2].
  split; intros H; [apply H1 | apply H2]; rewrite <- H; reflexivity.
Qed.

Lemma max_from_nan (l : list PyFloat.float) : max_from S754_nan l = S754_nan.
Proof.
  induction l as [|x r IH]; cbn [max_from]; [reflexivity|].
  replace (PyFloat.gt x S754_nan) with false; [exact IH|].
  destruct x; reflexivity.
Qed.

Lemma max_from_skips_nan (cur : PyFloat.float) (l1 l2 : list PyFloat.float) :
  max_from cur (l1 ++ S754_nan :: l2) = max_from cur (l1 ++ l2).
Proof.
  revert cur. induction l1 as [|x r IH]; intros cur; cbn [app max_from].
  - replace (PyFloat.gt S754_nan cur) with false; [reflexivity|].
    destruct cur; reflexivity.
  - apply IH.
Qed.

Lemma artifact_calls_no_console {fvec : Type} (evs : list (event fvec)) :
  forallb is_artifact_call evs = true -> existsb is_Console evs = false.
Proof.
  induction evs as [|ev r IH]; cbn [forallb existsb]; intros H; [reflexivity|].
  apply andb_true_iff in H as [Hev Hr]. rewrite (IH Hr).
  destruct ev; try discriminate Hev; reflexivity.
Qed.

Section EvaluationExtras.

Context {fvec : Type}.

Implicit Types (g : globals fvec) (t : trace fvec) (q ua : pyval) (s : str).

Lemma evaluate_answer_try_ignores_question g q q' ua t :
  evaluate_answer_try g q ua t = evaluate_answer_try g q' ua t.
Proof.
  unfold evaluate_answer_try.
  apply bind_ext; intros x t2. apply bind_ext; intros preds t3.
  apply bind_ext; intros p t4. apply bind_ext; intros k t5.
  replace (call_generate_feedback (Z.max 0 (Z.min 100 k)) ua q')
    with (call_generate_feedback (Z.max 0 (Z.min 100 k)) ua q);
    [reflexivity | destruct ua; reflexivity].
Qed.

(** X7. The question has no part in the evaluation: two calls that differ
    in the question only return the same dict and make the same calls. *)
Theorem evaluate_answer_ignores_question g q q' ua t :
  evaluate_answer g q ua t = evaluate_answer g q' ua t.
Proof.
  unfold evaluate_answer. apply bind_ext. intros [|] t1; [reflexivity|].
  unfold try_except.
  rewrite (evaluate_answer_try_ignores_question g q q' ua t1). reflexivity.
Qed.

(** X16. An answer made of white space only, however long, and an answer
    of fewer than ten characters get the short-answer dict, and no call is
    made. *)
Theorem evaluate_answer_blank_or_brief g q s t :
  forallb isspace s = true \/ len s < 10 ->
  evaluate_answer g q (PStr s) t = (Return too_short_result, t).
Proof.
  intros H. apply evaluate_answer_short_path.
  assert (Hlen : len (strip s) < 10).
  { destruct H as [H | H].
    - rewrite (strip_all_space s H). unfold len. cbn. lia.
    - pose proof (strip_length s). lia. }
  unfold too_short. destruct (truthy (PStr s)); cbn [negb py_strip]; [|reflexivity].
  destruct (Z.ltb_spec (len (strip s)) 10); [reflexivity | lia].
Qed.

(** X8. In every dict [evaluate_answer] returns, the feedback agrees with
    the score beside it: "Excellent" comes with a score of 80 or more and
    no improvement, "Good" with 60 to 79, "Fair" with 40 to 59, "Needs
    improvement" with less than 40. *)
Theorem evaluate_answer_feedback_matches_score g q ua t r t' :
  evaluate_answer g q ua t = (Return r, t') ->
  (feedback r = feedback_excellent -> 80 <= score r <= 100 /\ improvements r = [])
  /\ (feedback r = feedback_good -> 60 <= score r < 80)
  /\ (feedback r = feedback_fair -> 40 <= score r < 60)
  /\ (feedback r = feedback_needs_improvement -> 0 <= score r < 40).
Proof.
  intros H.
  destruct (evaluate_answer_paths _ _ _ _ _ _ H)
    as [(-> & _) | [(e & t1 & _ & -> & _) | (s & k & _ & _ & _ & ->)]].
  - split; [|split; [|split]]; intros E; vm_compute in E; discriminate E.
  - split; [|split; [|split]]; intros E; vm_compute in E; discriminate E.
  - destruct (evaluation_for_feedback (clamp k) s q) as (Hf & _ & Hi).
    rewrite Hf, Hi, evaluation_for_score.
    pose proof (clamp_range k) as Hr. fold (clamp k) in Hr.
    destruct feedback_strings_distinct as (H12 & H13 & H14 & H23 & H24 & H34).
    destruct (generate_feedback_feedback_cases (clamp k) s q)
      as [[E Hs]|[[E Hs]|[[E Hs]|[E Hs]]]]; rewrite E;
      (split; [|split; [|split]]); intros E'; try lia; try (exfalso; congruence).
    split; [lia|].
    rewrite generate_feedback_improvements.
    destruct (Z.ltb_spec (clamp k) 80), (Z.ltb_spec (clamp k) 60),
      (Z.ltb_spec (clamp k) 40); try lia. reflexivity.
Qed.

(** X9. Called while an artifact is missing, [evaluate_answer] does not
    raise: the [AttributeError] on [None] is caught and the fallback dict is
    returned, with no call when the vectorizer is missing and the one call
    of [transform] when the model is. *)
Theorem evaluate_answer_without_artifacts g q ua t :
  too_short ua = Return false ->
  (vectorizer g = None ->
   evaluate_answer g q ua t
   = (Return fallback_result,
      t ++ [Console (lit "Error during evaluation: "
                     ++ lit "'NoneType' object has no attribute 'transform'")]))
  /\ (forall v x,
        vectorizer g = Some v -> transform v [ua] = Return x -> model g = None ->
        evaluate_answer g q ua t
        = (Return fallback_result,
           (t ++ [CallTransform [ua]])
           ++ [Console (lit "Error during evaluation: "
                        ++ lit "'NoneType' object has no attribute 'predict'")])).
Proof.
  intros H. rewrite (evaluate_answer_past_validation _ _ _ _ H).
  unfold try_except. split.
  - intros Hv. rewrite (evaluate_answer_try_no_vectorizer g q ua t Hv). reflexivity.
  - intros v x Hv Ht Hm.
    unfold evaluate_answer_try, call_transform, call_predict.
    rewrite Hv, Hm. unfold bind, emit, lift. rewrite Ht. reflexivity.
Qed.

(** X10. With [predict_proba], the label that [predict] returns has no
    part in the result: the score is the confidence alone. *)
Theorem evaluate_answer_proba_ignores_prediction
  q s t (v : Vectorizer fvec) pr pr' proba x p preds p' preds' :
  10 <= len (strip s) ->
  transform v [PStr s] = Return x ->
  pr x = Return (p :: preds) ->
  pr' x = Return (p' :: preds') ->
  evaluate_answer (mkGlobals (Some (mkModel pr (Some proba))) (Some v)) q (PStr s) t
  = evaluate_answer (mkGlobals (Some (mkModel pr' (Some proba))) (Some v)) q (PStr s) t.
Proof.
  intros Hlen Ht Hp Hp'.
  rewrite !(evaluate_answer_past_validation _ _ _ _ (too_short_long s Hlen)).
  unfold try_except.
  rewrite (evaluate_answer_try_steps
             (mkGlobals (Some (mkModel pr (Some proba))) (Some v))
             q s t v (mkModel pr (Some proba)) x p preds eq_refl eq_refl Ht Hp).
  rewrite (evaluate_answer_try_steps
             (mkGlobals (Some (mkModel pr' (Some proba))) (Some v))
             q s t v (mkModel pr' (Some proba)) x p' preds' eq_refl eq_refl Ht Hp').
  reflexivity.
Qed.

(** X11. Empty outputs of the model end in the fallback dict: no
    prediction, no row of probabilities, or a row without a class. *)
Theorem evaluate_answer_empty_outputs g q s t v m x :
  10 <= len (strip s) ->
  vectorizer g = Some v -> model g = Some m ->
  transform v [PStr s] = Return x ->
  (predict m x = Return [] ->
   fst (evaluate_answer g q (PStr s) t) = Return fallback_result)
  /\ (forall p preds proba,
        predict m x = Return (p :: preds) ->
        predict_proba m = Some proba ->
        proba x = Return [] \/ (exists rows, proba x = Return ([] :: rows)) ->
        fst (evaluate_answer g q (PStr s) t) = Return fallback_result).
Proof.
  intros Hlen Hv Hm Ht.
  rewrite (evaluate_answer_past_validation _ _ _ _ (too_short_long s Hlen)).
  unfold try_except. split.
  - intros Hp. unfold evaluate_answer_try, call_transform, call_predict.
    rewrite Hv, Hm. unfold bind, emit, lift. rewrite Ht, Hp. reflexivity.
  - intros p preds proba Hp Hpp Hrows.
    rewrite (evaluate_answer_try_steps g q s t v m x p preds Hv Hm Ht Hp).
    unfold model_score, get_predict_proba. rewrite Hm, Hpp.
    unfold bind, emit, lift.
    destruct Hrows as [-> | (rows & ->)]; reflexivity.
Qed.

(** X12. A NaN in the first place of the probabilities is what [max]
    returns, [int] raises on it, and the fallback dict is returned. *)
Theorem evaluate_answer_nan_first g q s t v m x p preds proba rest rows :
  10 <= len (strip s) ->
  vectorizer g = Some v -> model g = Some m ->
  transform v [PStr s] = Return x ->
  predict m x = Return (p :: preds) ->
  predict_proba m = Some proba ->
  proba x = Return ((S754_nan :: rest) :: rows) ->
  fst (evaluate_answer g q (PStr s) t) = Return fallback_result.
Proof.
  intros Hlen Hv Hm Ht Hp Hpp Hrows.
  rewrite (evaluate_answer_past_validation _ _ _ _ (too_short_long s Hlen)).
  unfold try_except.
  rewrite (evaluate_answer_try_steps g q s t v m x p preds Hv Hm Ht Hp).
  unfold model_score, get_predict_proba. rewrite Hm, Hpp.
  unfold bind, emit, lift. rewrite Hrows. cbn [index0 py_max].
  rewrite max_from_nan. reflexivity.
Qed.

(** X13. A NaN in any later place is passed over by [max]: the result is
    the one the same probabilities give without it. *)
Theorem evaluate_answer_nan_later
  q s t (v : Vectorizer fvec) pr proba proba' x p preds c l1 l2 rows rows' :
  10 <= len (strip s) ->
  transform v [PStr s] = Return x ->
  pr x = Return (p :: preds) ->
  proba x = Return ((c :: l1 ++ S754_nan :: l2) :: rows) ->
  proba' x = Return ((c :: l1 ++ l2) :: rows') ->
  evaluate_answer (mkGlobals (Some (mkModel pr (Some proba))) (Some v)) q (PStr s) t
  = evaluate_answer (mkGlobals (Some (mkModel pr (Some proba'))) (Some v)) q (PStr s) t.
Proof.
  intros Hlen Ht Hp Hr Hr'.
  rewrite !(evaluate_answer_past_validation _ _ _ _ (too_short_long s Hlen)).
  unfold try_except.
  rewrite (evaluate_answer_try_steps
             (mkGlobals (Some (mkModel pr (Some proba))) (Some v))
             q s t v (mkModel pr (Some proba)) x p preds eq_refl eq_refl Ht Hp).
  rewrite (evaluate_answer_try_steps
             (mkGlobals (Some (mkModel pr (Some proba'))) (Some v))
             q s t v (mkModel pr (Some proba')) x p preds eq_refl eq_refl Ht Hp).
  unfold model_score, get_predict_proba. cbn [model predict_proba].
  unfold bind, emit, lift. rewrite Hr, Hr'. cbn [index0 py_max].
  rewrite max_from_skips_nan. reflexivity.
Qed.

(** X14. The three kinds of dict cannot be mistaken for one another: the
    fallback dict and the short-answer dict differ from each other and from
    every dict of the model path, whatever the score, so a fallback 50 is
    told apart from a scored 50. *)
Theorem evaluate_answer_results_recognisable (sc : Z) s q :
  fallback_result <> evaluation_for sc s q
  /\ too_short_result <> evaluation_for sc s q
  /\ fallback_result <> too_short_result.
Proof.
  destruct (evaluation_for_not_fixed sc s q) as [H1 H2].
  split; [exact H2|]. split; [exact H1|].
  intros H. apply (f_equal score) in H. discriminate H.
Qed.

(** X15. What a call leaves on the trace: it only appends; at most three
    of the events are calls on the artifacts; a console line is written
    exactly when the fallback dict is returned; and the short-answer dict
    comes with no event at all. *)
Theorem evaluate_answer_trace g q ua t r t' :
  evaluate_answer g q ua t = (Return r, t') ->
  exists evs,
    t' = t ++ evs
    /\ (List.length (filter is_artifact_call evs) <= 3)%nat
    /\ (existsb is_Console evs = true <-> r = fallback_result)
    /\ (r = too_short_result -> evs = []).
Proof.
  intros H.
  destruct (evaluate_answer_paths _ _ _ _ _ _ H)
    as [(-> & -> & _) | [(e & t1 & Et & -> & ->) | (s & k & _ & _ & Et & ->)]].
  - exists []. rewrite app_nil_r. split; [reflexivity|]. split; [cbn; lia|].
    split; [|reflexivity].
    split; intros E; [discriminate E|].
    apply (f_equal score) in E. discriminate E.
  - destruct (evaluate_answer_try_calls g q ua t) as (evs & H1 & H2 & H3).
    rewrite Et in H1. cbn [snd] in H1. subst t1.
    exists (evs ++ [Console (lit "Error during evaluation: " ++ exn_msg e)]).
    rewrite app_assoc. split; [reflexivity|].
    rewrite filter_app, length_app, existsb_app. cbn [filter is_artifact_call existsb is_Console].
    pose proof (filter_length_le is_artifact_call evs) as Hf.
    split; [cbn [List.length]; lia|]. split.
    + split; intros _; [reflexivity | apply orb_true_r].
    + intros E. apply (f_equal score) in E. discriminate E.
  - destruct (evaluate_answer_try_calls g q ua t) as (evs & H1 & H2 & H3).
    rewrite Et in H1. cbn [snd] in H1. subst t'.
    destruct (evaluation_for_not_fixed (clamp k) s q) as [Hn1 Hn2].
    exists evs. split; [reflexivity|].
    pose proof (filter_length_le is_artifact_call evs) as Hf.
    split; [lia|]. rewrite (artifact_calls_no_console evs H2). split.
    + split; intros E; [discriminate E | congruence].
    + intros E. congruence.
Qed.

End EvaluationExtras.

(** ** More on the views *)

Section ViewExtras.

Context {fvec : Type}.

Implicit Types (g : globals fvec) (t : trace fvec) (data q ua : pyval) (s : str).

(** The view, path by path. *)
Lemma evaluate_answer_endpoint_paths g data t :
  evaluate_answer_endpoint g data t =
  if is_None (model g) || is_None (vectorizer g) then (Return not_loaded_response, t)
  else if negb (truthy data) then (Return invalid_request_response, t)
  else match data with
       | PDict d =>
           if negb (truthy (dict_get (lit "user_answer") (PStr []) d))
           then (Return answer_required_response, t)
           else match evaluate_answer g (dict_get (lit "question") (PStr []) d)
                        (dict_get (lit "user_answer") (PStr []) d) t with
                | (Return r, t') => (Return (mkResponse 200 (mkBody None r)), t')
                | (Raise e, t') => (Raise e, t')
                end
       | _ => (Raise (no_attribute (type_name data) "get"), t)
       end.
Proof.
  unfold evaluate_answer_endpoint.
  destruct (is_None (model g) || is_None (vectorizer g)); [reflexivity|].
  destruct (negb (truthy data)); [reflexivity|].
  destruct data as [ | b | z | x | s | l | d | c ]; try reflexivity.
  unfold bind at 1. cbn [lift py_get]. unfold bind at 1. cbn [lift py_get].
  destruct (negb (truthy (dict_get (lit "user_answer") (PStr []) d))); [reflexivity|].
  unfold bind. destruct (evaluate_answer g _ _ t) as [[r|e] t']; reflexivity.
Qed.

Lemma evaluate_answer_returns_in_range g q ua t r t' :
  evaluate_answer g q ua t = (Return r, t') -> 0 <= score r <= 100.
Proof.
  intros H.
  destruct (evaluate_answer_paths _ _ _ _ _ _ H)
    as [(-> & _) | [(e & t1 & _ & -> & _) | (s & k & _ & _ & _ & ->)]].
  - cbn. lia.
  - cbn. lia.
  - rewrite evaluation_for_score. apply clamp_range.
Qed.

(** X17. The client sees one of three status codes, 200, 400 or 500; and a
    response the view returns carries the key [error] exactly when its
    status is not 200. *)
Theorem evaluate_answer_endpoint_statuses g data t :
  In (http_status (fst (evaluate_answer_endpoint g data t))) [200; 400; 500]
  /\ (forall r t',
        evaluate_answer_endpoint g data t = (Return r, t') ->
        (error (body r) = None <-> status r = 200)).
Proof.
  rewrite evaluate_answer_endpoint_paths.
  destruct (is_None (model g) || is_None (vectorizer g)).
  { split; [cbn; tauto|]. intros r t' H. injection H as <- _.
    cbn. split; intros E; discriminate E. }
  destruct (negb (truthy data)).
  { split; [cbn; tauto|]. intros r t' H. injection H as <- _.
    cbn. split; intros E; discriminate E. }
  destruct data as [ | b | z | x | s | l | d | c ];
    try (split; [cbn; tauto | intros r t' H; discriminate H]).
  destruct (negb (truthy (dict_get (lit "user_answer") (PStr []) d))).
  { split; [cbn; tauto|]. intros r t' H. injection H as <- _.
    cbn. split; intros E; discriminate E. }
  destruct (evaluate_answer g _ _ t) as [[r0|e] t0].
  - split; [cbn; tauto|]. intros r t' H. injection H as <- _.
    cbn. split; reflexivity.
  - split; [cbn; tauto | intros r t' H; discriminate H].
Qed.

(** X18. Every response the view returns has a score in [0,100]; and one
    whose status is not 200 has score 0, no strengths, and was built without
    any call on the artifacts or line on the console. *)
Theorem evaluate_answer_endpoint_response_shape g data t r t' :
  evaluate_answer_endpoint g data t = (Return r, t') ->
  0 <= score (result (body r)) <= 100
  /\ (status r <> 200 ->
      score (result (body r)) = 0 /\ strengths (result (body r)) = [] /\ t' = t).
Proof.
  rewrite evaluate_answer_endpoint_paths.
  destruct (is_None (model g) || is_None (vectorizer g)).
  { intros H. injection H as <- <-. cbn. repeat split; lia. }
  destruct (negb (truthy data)).
  { intros H. injection H as <- <-. cbn. repeat split; lia. }
  destruct data as [ | b | z | x | s | l | d | c ]; try (intros H; discriminate H).
  destruct (negb (truthy (dict_get (lit "user_answer") (PStr []) d))).
  { intros H. injection H as <- <-. cbn. repeat split; lia. }
  destruct (evaluate_answer g _ _ t) as [[r0|e] t0] eqn:E;
    intros H; [|discriminate H].
  injection H as <- <-. cbn [status body result].
  split; [exact (evaluate_answer_returns_in_range _ _ _ _ _ _ E) | congruence].
Qed.


(** X20. A [user_answer] that is present and false (the empty string,
    [null], 0, [false], an empty array or object) is refused like a missing
    one: 400, "user_answer is required", and the one suggestion to provide
    an answer. *)
Theorem evaluate_answer_endpoint_false_answer g d t :
  is_None (model g) = false -> is_None (vectorizer g) = false ->
  d <> [] ->
  truthy (dict_get (lit "user_answer") (PStr []) d) = false ->
  evaluate_answer_endpoint g (PDict d) t = (Return answer_required_response, t)
  /\ status answer_required_response = 400
  /\ improvements (result (body answer_required_response))
     = [lit "Provide an answer to the question"].
Proof.
  intros Hm Hv Hd Hua.
  rewrite evaluate_answer_endpoint_paths, Hm, Hv, Hua.
  destruct d; [congruence|]. repeat split.
Qed.

(** X21. A [user_answer] that is true and is no string (a number, [true],
    an array or object that is not empty) passes the view's check and makes
    [evaluate_answer] raise outside its [try]: the client gets 500, and no
    call was made. *)
Theorem evaluate_answer_endpoint_non_string_answer g d t :
  is_None (model g) = false -> is_None (vectorizer g) = false ->
  truthy (dict_get (lit "user_answer") (PStr []) d) = true ->
  is_str (dict_get (lit "user_answer") (PStr []) d) = false ->
  evaluate_answer_endpoint g (PDict d) t
  = (Raise (no_attribute (type_name (dict_get (lit "user_answer") (PStr []) d)) "strip"), t)
  /\ http_status (fst (evaluate_answer_endpoint g (PDict d) t)) = 500.
Proof.
  intros Hm Hv Hua Hstr.
  assert (Hd : truthy (PDict d) = true).
  { destruct d; [cbn in Hua; discriminate Hua | reflexivity]. }
  rewrite evaluate_answer_endpoint_paths, Hm, Hv, Hd, Hua. cbn [orb negb].
  assert (E : too_short (dict_get (lit "user_answer") (PStr []) d)
              = Raise (no_attribute
                         (type_name (dict_get (lit "user_answer") (PStr []) d)) "strip")).
  { unfold too_short. rewrite Hua. cbn [negb].
    destruct (dict_get (lit "user_answer") (PStr []) d); try reflexivity.
    discriminate Hstr. }
  rewrite (evaluate_answer_raise_path g _ _ t _ E). split; reflexivity.
Qed.

(** X22. A body that is true and is no object (an array, a number, a
    string) makes the view raise on [data.get]: the client gets 500. *)
Theorem evaluate_answer_endpoint_non_object_body g data t :
  is_None (model g) = false -> is_None (vectorizer g) = false ->
  truthy data = true -> is_dict data = false ->
  evaluate_answer_endpoint g data t = (Raise (no_attribute (type_name data) "get"), t)
  /\ http_status (fst (evaluate_answer_endpoint g data t)) = 500.
Proof.
  intros Hm Hv Ht Hd.
  rewrite evaluate_answer_endpoint_paths, Hm, Hv, Ht. cbn [orb negb].
  destruct data; try discriminate Hd; split; reflexivity.
Qed.

(** X23. Of an object body only the field [user_answer] counts: two bodies
    with the same [user_answer] get the same response, whatever their
    [question] and their other fields. *)
Theorem evaluate_answer_endpoint_only_answer_counts g d d' t :
  d <> [] -> d' <> [] ->
  dict_get (lit "user_answer") (PStr []) d = dict_get (lit "user_answer") (PStr []) d' ->
  evaluate_answer_endpoint g (PDict d) t = evaluate_answer_endpoint g (PDict d') t.
Proof.
  intros Hd Hd' Hua.
  rewrite !evaluate_answer_endpoint_paths, Hua.
  replace (truthy (PDict d)) with true by (destruct d; [congruence | reflexivity]).
  replace (truthy (PDict d')) with true by (destruct d'; [congruence | reflexivity]).
  unfold evaluate_answer.
  rewrite (bind_ext _ _ (fun short : bool =>
             if short then ret too_short_result
             else try_except
                    (evaluate_answer_try g (dict_get (lit "question") (PStr []) d')
                       (dict_get (lit "user_answer") (PStr []) d'))
                    evaluate_answer_except)); [reflexivity|].
  intros [|] t1; [reflexivity|]. unfold try_except.
  rewrite (evaluate_answer_try_ignores_question g
             (dict_get (lit "question") (PStr []) d)
             (dict_get (lit "question") (PStr []) d')). reflexivity.
Qed.

End ViewExtras.

(** ** More on the loader and the start-up *)

Lemma forallb_repeat {A : Type} (f : A -> bool) (a : A) (n : nat) :
  f a = true -> forallb f (repeat a n) = true.
Proof.
  intros H. induction n as [|n IH]; cbn [repeat forallb]; [reflexivity|].
  rewrite H, IH. reflexivity.
Qed.

Section StartupExtras.

Context {fvec : Type}.

Implicit Types (g : globals fvec) (t : trace fvec) (d : @dataset fvec) (h : host).

(** X24. With a console that takes every character,
    [load_model_and_vectorizer] never raises and only prints. It returns
    [True] exactly when each of the two files can be read by one of the two
    loaders, and the globals then hold what the files hold, [None] included.
    When the vectorizer cannot be read the globals are left as they were;
    when only the model cannot, the vectorizer global is replaced all the
    same and the model global is left as it was. *)
Theorem load_model_and_vectorizer_outcome h d g t :
  (forall c, stdout_encodes h c = true) ->
  exists ok evs,
    load_model_and_vectorizer h d g t
    = (Return ok,
       match load_artifact (tfidf_vectorizer_pkl d) with
       | Raise _ => g
       | Return v =>
           match load_artifact (interview_model_pkl d) with
           | Raise _ => mkGlobals (model g) v
           | Return m => mkGlobals m v
           end
       end,
       t ++ evs)
    /\ forallb is_Console evs = true
    /\ (ok = true <-> loadable (tfidf_vectorizer_pkl d) /\ loadable (interview_model_pkl d)).
Proof.
  intros Henc.
  pose proof (load_artifact_loadable (tfidf_vectorizer_pkl d)) as Lv.
  pose proof (load_artifact_loadable (interview_model_pkl d)) as Lm.
  unfold load_model_and_vectorizer, load_model_and_vectorizer_try,
    load_model_and_vectorizer_except, st_try, st_bind, st_run, st_lift,
    st_ret, set_vectorizer, set_model, print.
  destruct (load_artifact (tfidf_vectorizer_pkl d)) as [v|e]; encodable_simpl Henc.
  - destruct (load_artifact (interview_model_pkl d)) as [m|e]; encodable_simpl Henc.
    + exists true. eexists. split; [rewrite <- !app_assoc; reflexivity|].
      split; [reflexivity|].
      split; [intros _; split; [apply Lv | apply Lm]; eexists; reflexivity | reflexivity].
    + assert (Hn : ~ loadable (interview_model_pkl d)).
      { intros H. apply Lm in H as [a H]. discriminate H. }
      exists false. destruct (exn_cls e); encodable_simpl Henc;
        eexists; (split; [rewrite <- !app_assoc; reflexivity|]);
        (split; [reflexivity|]);
        (split; [intros E; discriminate E | intros [_ H]; contradiction]).
  - assert (Hn : ~ loadable (tfidf_vectorizer_pkl d)).
    { intros H. apply Lv in H as [a H]. discriminate H. }
    exists false. destruct (exn_cls e); encodable_simpl Henc;
      eexists; (split; [rewrite <- ?app_assoc; reflexivity|]);
      (split; [reflexivity|]);
      (split; [intros E; discriminate E | intros [H _]; contradiction]).
Qed.

(** X25. With a console that takes every character, the [__main__] block
    writes its lines and, as its last action, calls [app.run] on host
    0.0.0.0 and port 5000 exactly when both files could be read, ending as
    [app.run] ends; otherwise it only writes and returns. *)
Theorem main_outcome h d g0 :
  (forall c, stdout_encodes h c = true) ->
  exists (ok : bool) g' lines,
    main h d g0 []
    = ((if ok then app_run h else Return tt), g',
       lines ++ (if ok then [AppRun (lit "0.0.0.0") 5000] else []))
    /\ forallb is_Console lines = true
    /\ (ok = true <-> loadable (tfidf_vectorizer_pkl d) /\ loadable (interview_model_pkl d)).
Proof.
  intros Henc.
  pose proof (load_artifact_loadable (tfidf_vectorizer_pkl d)) as Lv.
  pose proof (load_artifact_loadable (interview_model_pkl d)) as Lm.
  destruct (load_artifact (tfidf_vectorizer_pkl d)) as [v|e] eqn:Ev;
    [destruct (load_artifact (interview_model_pkl d)) as [m|e] eqn:Em|].
  - exists true.
    unfold main, main_serve, load_model_and_vectorizer, load_model_and_vectorizer_try,
      st_try, st_bind, st_run, st_lift, st_ret, set_vectorizer, set_model, print.
    rewrite Ev, Em. encodable_simpl Henc.
    eexists. eexists. split; [reflexivity|].
    split; [rewrite ?forallb_is_Console_snoc; reflexivity|].
    split; [intros _; split; [apply Lv | apply Lm]; eexists; reflexivity | reflexivity].
  - assert (Hn : ~ (loadable (tfidf_vectorizer_pkl d) /\ loadable (interview_model_pkl d))).
    { intros [_ H]. apply Lm in H as [a H]. discriminate H. }
    destruct (main_not_loadable h d g0 Henc Hn) as (g' & lines & E & Hl).
    exists false, g', (lines ++ map Console failed_to_start).
    rewrite app_nil_r. split; [exact E|].
    split; [rewrite forallb_app, Hl; reflexivity|].
    split; [intros H; discriminate H | intros H; contradiction].
  - assert (Hn : ~ (loadable (tfidf_vectorizer_pkl d) /\ loadable (interview_model_pkl d))).
    { intros [H _]. apply Lv in H as [a H]. discriminate H. }
    destruct (main_not_loadable h d g0 Henc Hn) as (g' & lines & E & Hl).
    exists false, g', (lines ++ map Console failed_to_start).
    rewrite app_nil_r. split; [exact E|].
    split; [rewrite forallb_app, Hl; reflexivity|].
    split; [intros H; discriminate H | intros H; contradiction].
Qed.

(** X26. If the [__main__] block reached [app.run], both files were read
    and the globals hold what they hold. The health views then report, for
    each artifact, whether its file held an object other than [None]; and
    the view of [/evaluate-answer] returns a response of status 500 exactly
    when one of the two files held [None]. *)
Theorem started_server_globals h d g0 :
  server_started (trace_of (main h d g0 [])) = true ->
  exists v m,
    load_artifact (tfidf_vectorizer_pkl d) = Return v
    /\ load_artifact (interview_model_pkl d) = Return m
    /\ globals_of (main h d g0 []) = mkGlobals m v
    /\ model_loaded (health_check (globals_of (main h d g0 []))) = negb (is_None m)
    /\ vectorizer_loaded (health_check (globals_of (main h d g0 []))) = negb (is_None v)
    /\ (forall data t,
          (exists r t', evaluate_answer_endpoint (globals_of (main h d g0 [])) data t
                        = (Return r, t') /\ status r = 500)
          <-> m = None \/ v = None).
Proof.
  intros Hs. destruct (main_started h d g0 Hs) as (v & m & Hv & Hm & Hg).
  exists v, m. rewrite Hg. split; [exact Hv|]. split; [exact Hm|].
  split; [reflexivity|]. split; [reflexivity|]. split; [reflexivity|].
  intros data t. rewrite evaluate_answer_endpoint_paths. cbn [model vectorizer].
  destruct m as [m|], v as [v|]; cbn [is_None orb].
  - split; [|intros [H | H]; discriminate H].
    intros (r & t' & H & Hst). exfalso. revert H.
    destruct (negb (truthy data)); [intros H; injection H as <- _; discriminate Hst|].
    destruct data as [ | b | z | x | s | l | d0 | c ]; try (intros H; discriminate H).
    destruct (negb (truthy (dict_get (lit "user_answer") (PStr []) d0)));
      [intros H; injection H as <- _; discriminate Hst|].
    destruct (evaluate_answer _ _ _ t) as [[r0|e] t1]; intros H; [|discriminate H].
    injection H as <- _. discriminate Hst.
  - split; [intros _; right; reflexivity|].
    intros _. eexists. eexists. split; reflexivity.
  - split; [intros _; left; reflexivity|].
    intros _. eexists. eexists. split; reflexivity.
  - split; [intros _; left; reflexivity|].
    intros _. eexists. eexists. split; reflexivity.
Qed.

(** X27. On a console whose encoding lacks U+1F680, the [__main__] block
    raises [UnicodeEncodeError] at the second line of its banner: the first
    rule is all it printed, nothing was loaded and [app.run] was not
    called. *)
Theorem main_banner_not_encodable h d g0 t :
  stdout_encodes h 61%N = true ->
  stdout_encodes h 128640%N = false ->
  main h d g0 t
  = (Raise (mkExn UnicodeEncodeError
              (encode_error h ([128640%N] ++ lit " AI MOCK INTERVIEW - PYTHON BACKEND"))),
     g0, t ++ [Console rule]).
Proof.
  intros Heq Hrocket.
  assert (Hr : forallb (stdout_encodes h) rule = true)
    by (apply forallb_repeat; exact Heq).
  assert (Hb : forallb (stdout_encodes h)
                 ([128640%N] ++ lit " AI MOCK INTERVIEW - PYTHON BACKEND") = false).
  { cbn [app forallb]. rewrite Hrocket. reflexivity. }
  unfold main. unfold st_bind at 1. unfold st_run at 1. unfold print at 1.
  rewrite Hr. unfold emit at 1. unfold st_bind at 1. unfold st_run at 1.
  unfold print at 1. rewrite Hb. reflexivity.
Qed.

(** X28. On a console whose encoding lacks U+2713 and U+2717,
    [load_model_and_vectorizer] raises [UnicodeEncodeError] whatever the
    files are, having printed nothing: the line that reports the outcome is
    the one that cannot be printed. *)
Theorem load_model_and_vectorizer_not_encodable h d g t :
  stdout_encodes h 10003%N = false ->
  stdout_encodes h 10007%N = false ->
  exists e g',
    load_model_and_vectorizer h d g t = (Raise e, g', t)
    /\ exn_cls e = UnicodeEncodeError.
Proof.
  intros Hcheck Hcross.
  unfold load_model_and_vectorizer, load_model_and_vectorizer_try,
    load_model_and_vectorizer_except, st_try, st_bind, st_run, st_lift,
    st_ret, set_vectorizer, set_model, print.
  destruct (load_artifact (tfidf_vectorizer_pkl d)) as [v|e].
  - cbn [app forallb]. rewrite Hcheck. cbv beta iota zeta delta [lift andb exn_cls].
    cbn [app forallb]. rewrite Hcross. cbv beta iota zeta delta [lift andb].
    eexists. eexists. split; reflexivity.
  - destruct (exn_cls e); cbn [app forallb]; rewrite Hcross;
      cbv beta iota zeta delta [lift andb];
      eexists; eexists; split; reflexivity.
Qed.

End StartupExtras.

(** ** The further properties on the sample artifacts *)

Import MoreSamples.

(** Scores 35 and 72 on one answer. *)
Lemma generate_feedback_improvements_prefix_witness :
  35 <= 72
  /\ starts_with (snd (generate_feedback 72 long_answer question))
       (snd (generate_feedback 35 long_answer PNone)).
Proof.
  assert (H : 35 <= 72) by lia.
  split; [exact H|].
  exact (generate_feedback_improvements_prefix 35 72 long_answer PNone question H).
Defined.

Lemma evaluated_answer_has_a_word_witness :
  10 <= len (strip long_answer) /\ 1 <= word_count long_answer.
Proof.
  assert (H : 10 <= len (strip long_answer)) by (vm_compute; discriminate).
  split; [exact H | exact (evaluated_answer_has_a_word long_answer H)].
Defined.

(** The sample classifier scores 50, and the feedback is the "Fair" one. *)
Lemma evaluate_answer_feedback_matches_score_witness :
  evaluate_answer (loaded proba_model counting_vectorizer) question (PStr long_answer) []
  = (Return (evaluation_for (clamp 50) long_answer question),
     [CallTransform [PStr long_answer]; CallPredict 45%nat; CallPredictProba 45%nat])
  /\ (feedback (evaluation_for (clamp 50) long_answer question) = feedback_fair ->
      40 <= score (evaluation_for (clamp 50) long_answer question) < 60).
Proof.
  assert (H : evaluate_answer (loaded proba_model counting_vectorizer) question
                (PStr long_answer) []
              = (Return (evaluation_for (clamp 50) long_answer question),
                 [CallTransform [PStr long_answer]; CallPredict 45%nat;
                  CallPredictProba 45%nat]))
    by (vm_compute; reflexivity).
  split; [exact H|].
  exact (proj1 (proj2 (proj2 (evaluate_answer_feedback_matches_score _ _ _ _ _ _ H)))).
Defined.

(** Nothing loaded: the fallback dict, and no call. *)
Lemma evaluate_answer_without_artifacts_witness :
  too_short (PStr long_answer) = Return false
  /\ evaluate_answer (mkGlobals (@None (Model nat)) None) question (PStr long_answer) []
     = (Return fallback_result,
        [] ++ [Console (lit "Error during evaluation: "
                        ++ lit "'NoneType' object has no attribute 'transform'")]).
Proof.
  assert (H : too_short (PStr long_answer) = Return false) by (vm_compute; reflexivity).
  split; [exact H|].
  exact (proj1 (evaluate_answer_without_artifacts
                  (mkGlobals (@None (Model nat)) None) question (PStr long_answer) [] H)
           eq_refl).
Defined.

(** Two models that disagree on the label and agree on the probabilities. *)
Lemma evaluate_answer_proba_ignores_prediction_witness :
  10 <= len (strip long_answer)
  /\ evaluate_answer
       (mkGlobals (Some (mkModel (fun _ : nat => Return [PInt 1])
                           (Some (fun _ => Return [[p_low; p_high]]))))
          (Some counting_vectorizer)) question (PStr long_answer) []
     = evaluate_answer
         (mkGlobals (Some (mkModel (fun _ : nat => Return [PInt 0; PInt 7])
                             (Some (fun _ => Return [[p_low; p_high]]))))
            (Some counting_vectorizer)) question (PStr long_answer) [].
Proof.
  assert (H : 10 <= len (strip long_answer)) by (vm_compute; discriminate).
  split; [exact H|].
  exact (evaluate_answer_proba_ignores_prediction question long_answer []
           counting_vectorizer (fun _ => Return [PInt 1])
           (fun _ => Return [PInt 0; PInt 7]) (fun _ => Return [[p_low; p_high]])
           45%nat (PInt 1) [] (PInt 0) [PInt 7] H eq_refl eq_refl eq_refl).
Defined.

(** A model that predicts nothing. *)
Lemma evaluate_answer_empty_outputs_witness :
  10 <= len (strip long_answer)
  /\ fst (evaluate_answer (loaded silent_model counting_vectorizer) question
            (PStr long_answer) [])
     = Return fallback_result.
Proof.
  assert (H : 10 <= len (strip long_answer)) by (vm_compute; discriminate).
  split; [exact H|].
  exact (proj1 (evaluate_answer_empty_outputs
                  (loaded silent_model counting_vectorizer) question long_answer []
                  counting_vectorizer silent_model 45%nat H eq_refl eq_refl eq_refl)
           eq_refl).
Defined.

Lemma evaluate_answer_nan_first_witness :
  10 <= len (strip long_answer)
  /\ fst (evaluate_answer (loaded nan_first_model counting_vectorizer) question
            (PStr long_answer) [])
     = Return fallback_result.
Proof.
  assert (H : 10 <= len (strip long_answer)) by (vm_compute; discriminate).
  split; [exact H|].
  exact (evaluate_answer_nan_first
           (loaded nan_first_model counting_vectorizer) question long_answer []
           counting_vectorizer nan_first_model 45%nat (PInt 1) []
           (fun _ => Return [[S754_nan; p_high]]) [p_high] []
           H eq_refl eq_refl eq_refl eq_refl eq_refl eq_refl).
Defined.

(** The probabilities 0.5078125, NaN, 0.4921875 score like the two numbers
    alone. *)
Lemma evaluate_answer_nan_later_witness :
  10 <= len (strip long_answer)
  /\ evaluate_answer
       (mkGlobals (Some (mkModel (fun _ : nat => Return [PInt 1])
                           (Some (fun _ => Return [[p_high; S754_nan; p_low]]))))
          (Some counting_vectorizer)) question (PStr long_answer) []
     = evaluate_answer
         (mkGlobals (Some (mkModel (fun _ : nat => Return [PInt 1])
                             (Some (fun _ => Return [[p_high; p_low]]))))
            (Some counting_vectorizer)) question (PStr long_answer) [].
Proof.
  assert (H : 10 <= len (strip long_answer)) by (vm_compute; discriminate).
  split; [exact H|].
  exact (evaluate_answer_nan_later question long_answer [] counting_vectorizer
           (fun _ => Return [PInt 1])
           (fun _ => Return [[p_high; S754_nan; p_low]])
           (fun _ => Return [[p_high; p_low]])
           45%nat (PInt 1) [] p_high [] [p_low] [] []
           H eq_refl eq_refl eq_refl eq_refl).
Defined.

(** A vectorizer that raises: one call, one console line, the fallback. *)
Lemma evaluate_answer_trace_witness :
  evaluate_answer (loaded proba_model failing_vectorizer) question (PStr long_answer) []
  = (Return fallback_result,
     [CallTransform [PStr long_answer];
      Console (lit "Error during evaluation: " ++ lit "empty vocabulary")])
  /\ exists evs : list (event nat),
       [CallTransform [PStr long_answer];
        Console (lit "Error during evaluation: " ++ lit "empty vocabulary")]
       = [] ++ evs
       /\ (List.length (filter is_artifact_call evs) <= 3)%nat
       /\ (existsb is_Console evs = true <-> fallback_result = fallback_result)
       /\ (fallback_result = too_short_result -> evs = []).
Proof.
  assert (H : evaluate_answer (loaded proba_model failing_vectorizer) question
                (PStr long_answer) []
              = (Return fallback_result,
                 [CallTransform [PStr long_answer];
                  Console (lit "Error during evaluation: " ++ lit "empty vocabulary")]))
    by reflexivity.
  split; [exact H|].
  exact (evaluate_answer_trace _ _ _ _ _ _ H).
Defined.

Lemma evaluate_answer_blank_or_brief_witness :
  (forallb isspace blank_answer = true \/ len blank_answer < 10)
  /\ evaluate_answer (loaded proba_model counting_vectorizer) question
       (PStr blank_answer) []
     = (Return too_short_result, []).
Proof.
  assert (H : forallb isspace blank_answer = true \/ len blank_answer < 10)
    by (left; vm_compute; reflexivity).
  split; [exact H|].
  exact (evaluate_answer_blank_or_brief (loaded proba_model counting_vectorizer)
           question blank_answer [] H).
Defined.

(** The refusal of an empty answer: score 0, and nothing was called. *)
Lemma evaluate_answer_endpoint_response_shape_witness :
  evaluate_answer_endpoint (loaded proba_model counting_vectorizer)
    (body_of (PStr [])) []
  = (Return answer_required_response, [])
  /\ 0 <= score (result (body answer_required_response)) <= 100
  /\ (status answer_required_response <> 200 ->
      score (result (body answer_required_response)) = 0
      /\ strengths (result (body answer_required_response)) = []
      /\ @nil (event nat) = []).
Proof.
  assert (H : evaluate_answer_endpoint (loaded proba_model counting_vectorizer)
                (body_of (PStr [])) []
              = (Return answer_required_response, [])) by reflexivity.
  split; [exact H|].
  exact (evaluate_answer_endpoint_response_shape _ _ _ _ _ H).
Defined.


(** [{"question": ..., "user_answer": null}] *)
Lemma evaluate_answer_endpoint_false_answer_witness :
  is_None (model (loaded proba_model counting_vectorizer)) = false
  /\ is_None (vectorizer (loaded proba_model counting_vectorizer)) = false
  /\ [(lit "question", question); (lit "user_answer", PNone)] <> []
  /\ truthy (dict_get (lit "user_answer") (PStr [])
               [(lit "question", question); (lit "user_answer", PNone)]) = false
  /\ evaluate_answer_endpoint (loaded proba_model counting_vectorizer)
       (PDict [(lit "question", question); (lit "user_answer", PNone)]) []
     = (Return answer_required_response, []).
Proof.
  assert (Hd : [(lit "question", question); (lit "user_answer", PNone)] <> [])
    by discriminate.
  assert (Hu : truthy (dict_get (lit "user_answer") (PStr [])
                         [(lit "question", question); (lit "user_answer", PNone)])
               = false) by (vm_compute; reflexivity).
  split; [reflexivity|]. split; [reflexivity|]. split; [exact Hd|].
  split; [exact Hu|].
  exact (proj1 (evaluate_answer_endpoint_false_answer
                  (loaded proba_model counting_vectorizer)
                  [(lit "question", question); (lit "user_answer", PNone)] []
                  eq_refl eq_refl Hd Hu)).
Defined.

(** [{"question": ..., "user_answer": 5}] *)
Lemma evaluate_answer_endpoint_non_string_answer_witness :
  is_None (model (loaded proba_model counting_vectorizer)) = false
  /\ is_None (vectorizer (loaded proba_model counting_vectorizer)) = false
  /\ truthy (dict_get (lit "user_answer") (PStr [])
               [(lit "question", question); (lit "user_answer", PInt 5)]) = true
  /\ is_str (dict_get (lit "user_answer") (PStr [])
               [(lit "question", question); (lit "user_answer", PInt 5)]) = false
  /\ http_status
       (fst (evaluate_answer_endpoint (loaded proba_model counting_vectorizer)
               (PDict [(lit "question", question); (lit "user_answer", PInt 5)]) []))
     = 500.
Proof.
  assert (Ht : truthy (dict_get (lit "user_answer") (PStr [])
                         [(lit "question", question); (lit "user_answer", PInt 5)])
               = true) by (vm_compute; reflexivity).
  assert (Hs : is_str (dict_get (lit "user_answer") (PStr [])
                         [(lit "question", question); (lit "user_answer", PInt 5)])
               = false) by (vm_compute; reflexivity).
  split; [reflexivity|]. split; [reflexivity|]. split; [exact Ht|].
  split; [exact Hs|].
  exact (proj2 (evaluate_answer_endpoint_non_string_answer
                  (loaded proba_model counting_vectorizer)
                  [(lit "question", question); (lit "user_answer", PInt 5)] []
                  eq_refl eq_refl Ht Hs)).
Defined.

(** The body ["answer"], a JSON string. *)
Lemma evaluate_answer_endpoint_non_object_body_witness :
  is_None (model (loaded proba_model counting_vectorizer)) = false
  /\ is_None (vectorizer (loaded proba_model counting_vectorizer)) = false
  /\ truthy (PStr long_answer) = true
  /\ is_dict (PStr long_answer) = false
  /\ http_status
       (fst (evaluate_answer_endpoint (loaded proba_model counting_vectorizer)
               (PStr long_answer) []))
     = 500.
Proof.
  split; [reflexivity|]. split; [reflexivity|]. split; [reflexivity|].
  split; [reflexivity|].
  exact (proj2 (evaluate_answer_endpoint_non_object_body
                  (loaded proba_model counting_vectorizer) (PStr long_answer) []
                  eq_refl eq_refl eq_refl eq_refl)).
Defined.

(** One answer, with a question and with an unrelated field. *)
Lemma evaluate_answer_endpoint_only_answer_counts_witness :
  [(lit "question", question); (lit "user_answer", PStr long_answer)] <> []
  /\ [(lit "user_answer", PStr long_answer); (lit "lang", PStr (lit "en"))] <> []
  /\ dict_get (lit "user_answer") (PStr [])
       [(lit "question", question); (lit "user_answer", PStr long_answer)]
     = dict_get (lit "user_answer") (PStr [])
         [(lit "user_answer", PStr long_answer); (lit "lang", PStr (lit "en"))]
  /\ evaluate_answer_endpoint (loaded proba_model counting_vectorizer)
       (PDict [(lit "question", question); (lit "user_answer", PStr long_answer)]) []
     = evaluate_answer_endpoint (loaded proba_model counting_vectorizer)
         (PDict [(lit "user_answer", PStr long_answer); (lit "lang", PStr (lit "en"))]) [].
Proof.
  assert (H1 : [(lit "question", question); (lit "user_answer", PStr long_answer)] <> [])
    by discriminate.
  assert (H2 : [(lit "user_answer", PStr long_answer); (lit "lang", PStr (lit "en"))] <> [])
    by discriminate.
  assert (H3 : dict_get (lit "user_answer") (PStr [])
                 [(lit "question", question); (lit "user_answer", PStr long_answer)]
               = dict_get (lit "user_answer") (PStr [])
                   [(lit "user_answer", PStr long_answer); (lit "lang", PStr (lit "en"))])
    by (vm_compute; reflexivity).
  split; [exact H1|]. split; [exact H2|]. split; [exact H3|].
  exact (evaluate_answer_endpoint_only_answer_counts
           (loaded proba_model counting_vectorizer) _ _ [] H1 H2 H3).
Defined.

(** The folder whose model file holds [None]: the loader returns [True]
    and the model global is [None]. *)
Lemma load_model_and_vectorizer_outcome_witness :
  (forall c, stdout_encodes utf8_host c = true)
  /\ exists ok evs,
       load_model_and_vectorizer utf8_host none_model_dataset (mkGlobals None None) []
       = (Return ok, mkGlobals None (Some counting_vectorizer), [] ++ evs)
       /\ forallb is_Console evs = true
       /\ (ok = true <-> loadable (tfidf_vectorizer_pkl none_model_dataset)
                         /\ loadable (interview_model_pkl none_model_dataset)).
Proof.
  assert (H : forall c, stdout_encodes utf8_host c = true) by reflexivity.
  split; [exact H|].
  exact (load_model_and_vectorizer_outcome utf8_host none_model_dataset
           (mkGlobals None None) [] H).
Defined.

(** The folder with both files. *)
Lemma main_outcome_witness :
  (forall c, stdout_encodes utf8_host c = true)
  /\ exists (ok : bool) g' lines,
       main utf8_host full_dataset (mkGlobals None None) []
       = ((if ok then app_run utf8_host else Return tt), g',
          lines ++ (if ok then [AppRun (lit "0.0.0.0") 5000] else []))
       /\ forallb is_Console lines = true
       /\ (ok = true <-> loadable (tfidf_vectorizer_pkl full_dataset)
                         /\ loadable (interview_model_pkl full_dataset)).
Proof.
  assert (H : forall c, stdout_encodes utf8_host c = true) by reflexivity.
  split; [exact H|].
  exact (main_outcome utf8_host full_dataset (mkGlobals None None) H).
Defined.

(** The folder whose model file holds [None]: the server starts, and the
    view answers 500. *)
Lemma started_server_globals_witness :
  server_started (trace_of (main utf8_host none_model_dataset (mkGlobals None None) []))
  = true
  /\ exists v m,
       load_artifact (tfidf_vectorizer_pkl none_model_dataset) = Return v
       /\ load_artifact (interview_model_pkl none_model_dataset) = Return m
       /\ globals_of (main utf8_host none_model_dataset (mkGlobals None None) [])
          = mkGlobals m v
       /\ model_loaded (health_check
                          (globals_of (main utf8_host none_model_dataset
                                         (mkGlobals None None) [])))
          = negb (is_None m)
       /\ vectorizer_loaded (health_check
                               (globals_of (main utf8_host none_model_dataset
                                              (mkGlobals None None) [])))
          = negb (is_None v)
       /\ (forall data t,
             (exists r t',
                evaluate_answer_endpoint
                  (globals_of (main utf8_host none_model_dataset (mkGlobals None None) []))
                  data t = (Return r, t') /\ status r = 500)
             <-> m = None \/ v = None).
Proof.
  assert (H : server_started
                (trace_of (main utf8_host none_model_dataset (mkGlobals None None) []))
              = true) by (vm_compute; reflexivity).
  split; [exact H|].
  exact (started_server_globals utf8_host none_model_dataset (mkGlobals None None) H).
Defined.

(** The ASCII console. *)
Lemma main_banner_not_encodable_witness :
  stdout_encodes ascii_host 61%N = true
  /\ stdout_encodes ascii_host 128640%N = false
  /\ main ascii_host full_dataset (mkGlobals None None) []
     = (Raise (mkExn UnicodeEncodeError
                 (encode_error ascii_host
                    ([128640%N] ++ lit " AI MOCK INTERVIEW - PYTHON BACKEND"))),
        mkGlobals None None, [] ++ [Console rule]).
Proof.
  split; [reflexivity|]. split; [reflexivity|].
  exact (main_banner_not_encodable ascii_host full_dataset (mkGlobals None None) []
           eq_refl eq_refl).
Defined.

Lemma load_model_and_vectorizer_not_encodable_witness :
  stdout_encodes ascii_host 10003%N = false
  /\ stdout_encodes ascii_host 10007%N = false
  /\ exists e g',
       load_model_and_vectorizer ascii_host full_dataset (mkGlobals None None) []
       = (Raise e, g', [])
       /\ exn_cls e = UnicodeEncodeError.
Proof.
  split; [reflexivity|]. split; [reflexivity|].
  exact (load_model_and_vectorizer_not_encodable ascii_host full_dataset
           (mkGlobals None None) [] eq_refl eq_refl).
Defined.
